(** * convert_icons.py: PNG toolbar icons to 48x48 BMP with a magenta key

    A shallow embedding of [scripts/convert_icons.py] and the properties
    its specification states about it.

    The script is a straight line of calls into an imaging library.  The
    calls whose meaning is a small, documented per-pixel rule ([split],
    [point], [merge], [new], [paste]) are written out below.  The three
    calls that hide a codec or a resampling kernel (identifying and
    decoding a PNG, the Lanczos filter, encoding a BMP) are operations
    of the class [Imaging]; every theorem holds for all of its
    instances, and the module [Demo] gives one instance on which the
    script can be run. *)

From Stdlib Require Import ZArith.
From Stdlib.Strings Require Import Byte.
From stdpp Require Import gmap strings list fin_maps pretty.

Open Scope Z_scope.

(** ** Bytes

    A channel value is one byte.  Python hands the byte to a lambda as an
    unbounded integer and the library stores the lambda's answer back into
    a byte, saturating at both ends. *)

Definition to_Z (b : byte) : Z := Z.of_N (Byte.to_N b).

Definition clip8 (z : Z) : byte :=
  if z <? 0 then x00 else default xff (Byte.of_N (Z.to_N z)).

(** ** Paths, the file store and the console

    A POSIX path is the list of its components, the first one empty for
    an absolute path.  [joinpath] is the [/] of the path library for a
    right operand that is one component, which is what the script joins:
    the configured names contain no separator, and neither do the
    directory names.  A right operand with a separator in it the
    library would split and normalise; [plain] below tells the names for
    which [joinpath] is the library's operator. *)

Abbreviation Path := (list string).

Definition joinpath (p : Path) (s : string) : Path := p ++ [s].
Infix "//" := joinpath (at level 40, left associativity).

(** [Path.parent]: the root is its own parent. *)
Definition parent (p : Path) : Path :=
  match p with
  | [EmptyString] => p
  | _ => removelast p
  end.

Definition path_str (p : Path) : string := String.concat "/" p.

(** A name that is one path component: it holds no separator (the
    character of code 47). *)
Definition plain (name : string) : bool :=
  negb (existsb (Ascii.eqb (Ascii.ascii_of_nat 47)) (String.list_ascii_of_string name)).

(** The directories [mkdir(parents=True)] has to provide: the path itself
    and each of its ancestors. *)
Definition with_parents (p : Path) : list Path :=
  map (fun k => take k p) (seq 1 (length p)).

(** Regular files with their contents, directories, and the lines printed
    so far.  What a state does not record (permissions, free space) is
    outside the model; what it records decides every read and write. *)
Record World := mkWorld {
  files : gmap Path (list byte);
  dirs : gset Path;
  stdout : list string
}.

Definition set_files (f : gmap Path (list byte)) (w : World) : World :=
  mkWorld f (dirs w) (stdout w).
Definition set_dirs (d : gset Path) (w : World) : World :=
  mkWorld (files w) d (stdout w).
Definition set_stdout (o : list string) (w : World) : World :=
  mkWorld (files w) (dirs w) o.

(** ** Effects: state passing with exceptions

    A raised exception keeps the state reached so far, as in Python. *)

Inductive exn :=
  | FileNotFoundError
  | IsADirectoryError
  | UnidentifiedImageError
  | OSError
  | SyntaxError
  | ValueError
  | IndexError.

Inductive outcome (A : Type) :=
  | Ret (a : A)
  | Raise (e : exn).
Arguments Ret {A} a.
Arguments Raise {A} e.

Definition M (A : Type) : Type := World -> outcome A * World.

Definition ret {A} (a : A) : M A := fun w => (Ret a, w).

Definition raise {A} (e : exn) : M A := fun w => (Raise e, w).

Definition bind {A B} (m : M A) (k : A -> M B) : M B :=
  fun w =>
    match m w with
    | (Ret a, w') => k a w'
    | (Raise e, w') => (Raise e, w')
    end.

Notation "x <- m ;; k" := (bind m (fun x => k))
  (at level 100, m at next level, right associativity).
Notation "m ;;; k" := (bind m (fun _ => k))
  (at level 100, right associativity).

(** A library call that either answers or raises [e]. *)
Definition lift {A} (e : exn) (o : option A) : M A :=
  match o with
  | Some a => ret a
  | None => raise e
  end.

Definition print (line : string) : M unit :=
  fun w => (Ret tt, set_stdout (stdout w ++ [line]) w).

(** [Path.exists()]: true for a regular file and for a directory. *)
Definition path_exists (p : Path) (w : World) : bool :=
  match files w !! p with
  | Some _ => true
  | None => bool_decide (p ∈ dirs w)
  end.

Definition Path_exists (p : Path) : M bool :=
  fun w => (Ret (path_exists p w), w).

(** [Path.mkdir(parents=True, exist_ok=True)]. *)
Definition Path_mkdir (p : Path) : M unit :=
  fun w => (Ret tt, set_dirs (dirs w ∪ list_to_set (with_parents p)) w).

(** ** The imaging library *)

Module Image.

(** The modes the script meets: one band of grey, three of colour, and
    colour with alpha.  A decoder is taken to deliver one of them. *)
Inductive Mode := L | RGB | RGBA.

#[global] Instance Mode_eq_dec : EqDecision Mode.
Proof. solve_decision. Defined.

Definition nbands (m : Mode) : nat :=
  match m with L => 1 | RGB => 3 | RGBA => 4 end%nat.

(** An image: its mode, its size (width, height) and one row-major list
    of bytes per band. *)
Record t := mk {
  mode : Mode;
  size : nat * nat;
  bands : list (list byte)
}.

Definition npixels (sz : nat * nat) : nat := (sz.1 * sz.2)%nat.

Definition band (c : nat) (im : t) : list byte := default [] (bands im !! c).

(** [Image.getpixel((x, y))]: the channel values at a coordinate, or
    nothing outside the image. *)
Definition getpixel (im : t) (xy : nat * nat) : option (list byte) :=
  if (xy.1 <? (size im).1)%nat && (xy.2 <? (size im).2)%nat
  then mapM (fun b : list byte => b !! (xy.2 * (size im).1 + xy.1)%nat) (bands im)
  else None.

(** [Image.convert(mode)] between the three modes. *)
Definition opaque_like (b : list byte) : list byte := map (fun _ => xff) b.

Definition luma (r g b : byte) : byte :=
  clip8 (Z.shiftr (to_Z r * 19595 + to_Z g * 38470 + to_Z b * 7471 + 32768) 16).

Definition convert (m : Mode) (im : t) : t :=
  let b0 := band 0 im in
  let b1 := band 1 im in
  let b2 := band 2 im in
  mk m (size im)
    match mode im, m with
    | L, L | RGB, RGB | RGBA, RGBA => bands im
    | L, RGB => [b0; b0; b0]
    | L, RGBA => [b0; b0; b0; opaque_like b0]
    | RGB, RGBA => [b0; b1; b2; opaque_like b0]
    | RGBA, RGB => [b0; b1; b2]
    | _, L => [zip_with (fun rg b => luma rg.1 rg.2 b) (zip b0 b1) b2]
    end.

(** A resampling kernel: from the source image and the requested size,
    the value of band [c] at (x, y) of the resized image. *)
Definition Resampling : Type := t -> nat * nat -> nat -> nat * nat -> byte.

(** [Image.resize(size, resample)]: a new image of exactly the requested
    size and of the same mode, filled by the kernel. *)
Definition resize (sz : nat * nat) (resample : Resampling) (im : t) : t :=
  mk (mode im) sz
    (map (fun c =>
            map (fun i => resample im sz c ((i mod sz.1)%nat, (i / sz.1)%nat))
                (seq 0 (npixels sz)))
         (seq 0 (nbands (mode im)))).

(** [Image.split()]: one single-band image per band. *)
Definition split (im : t) : list t :=
  map (fun b => mk L (size im) [b]) (bands im).

(** [Image.point(f)]: the library tabulates [f] on 0..255 and sends
    every byte of every band through the table. *)
Definition lut (f : Z -> Z) : list byte :=
  map (fun i => clip8 (f (Z.of_nat i))) (seq 0 256).

Definition through (table : list byte) (v : byte) : byte :=
  default x00 (table !! N.to_nat (Byte.to_N v)).

Definition point (f : Z -> Z) (im : t) : t :=
  mk (mode im) (size im) (map (map (through (lut f))) (bands im)).

(** [Image.merge(mode, bands)]: raises ValueError unless the number of
    bands fits the mode and every band is single-band of one size. *)
Definition merge (m : Mode) (ims : list t) : option t :=
  match ims with
  | [] => None
  | first :: _ =>
      if bool_decide (nbands m = length ims
                      ∧ Forall (fun b => mode b = L ∧ size b = size first) ims)
      then Some (mk m (size first) (ims ≫= bands))
      else None
  end.

(** [Image.new(mode, size, color)] with a three-valued colour. *)
Definition new (m : Mode) (sz : nat * nat) (color : Z * Z * Z) : t :=
  let '(r, g, b) := color in
  mk m sz
    (take (nbands m)
       (map (fun v => replicate (npixels sz) (clip8 v)) [r; g; b; 255])).

(** The library's 8-bit blend: [mask]/255 of [inp] over [out], with its
    rounding division by 255. *)
Definition div255 (a : Z) : Z :=
  let tmp := a + 128 in Z.shiftr (Z.shiftr tmp 8 + tmp) 8.

Definition blend8 (mask out inp : byte) : byte :=
  clip8 (div255 (to_Z out * (255 - to_Z mask) + to_Z inp * to_Z mask)).

(** [dst.paste(src, mask=mask)] with no box and a single-band mask:
    [src] is laid at the origin of [dst], clipped to it, and blended in
    through [mask].  The library raises ValueError when mask and source
    differ in size. *)
Definition paste_band (dw : nat) (ssz : nat * nat) (m s o : list byte)
  : list byte :=
  zip_with
    (fun i v =>
       let x := (i mod dw)%nat in
       let y := (i / dw)%nat in
       if (x <? ssz.1)%nat && (y <? ssz.2)%nat then
         match m !! (y * ssz.1 + x)%nat, s !! (y * ssz.1 + x)%nat with
         | Some a, Some u => blend8 a v u
         | _, _ => v
         end
       else v)
    (seq 0 (length o)) o.

Definition paste (dst src mask : t) : option t :=
  if bool_decide (size mask = size src ∧ mode mask = L) then
    Some (mk (mode dst) (size dst)
            (zip_with (fun o s => paste_band (size dst).1 (size src) (band 0 mask) s o)
                      (bands dst) (bands src)))
  else None.

(** The codec and the one resampling kernel the script asks for.
    [identify] is the look at the header that [Image.open] takes,
    [decode] the reading of the pixel data that is put off until the
    image is used, and [broken] the exception that reading raises on
    data it cannot decode (OSError for a file cut short).  What decodes
    has been identified. *)
Class Imaging := {
  identify : list byte -> bool;
  decode : list byte -> option t;
  broken : list byte -> exn;
  LANCZOS : Resampling;
  encode : string -> t -> list byte;
  decode_identified : forall data img, decode data = Some img -> identify data = true
}.

(** An opened image file whose pixel data has not been read yet. *)
Definition File : Type := list byte.

(** [Image.open(path)]: raises when the path is a directory, when there
    is nothing at the path, and when no format is recognised; the pixel
    data is not read. *)
Definition open `{Imaging} (p : Path) : M File :=
  fun w =>
    match files w !! p with
    | Some data =>
        if identify data then (Ret data, w)
        else (Raise UnidentifiedImageError, w)
    | None =>
        (Raise (if bool_decide (p ∈ dirs w) then IsADirectoryError
                else FileNotFoundError), w)
    end.

(** [ImageFile.load()], which [convert] calls first: the pixel data is
    read here, and a file that was recognised may still fail. *)
Definition load `{Imaging} (f : File) : M t :=
  match decode f with
  | Some im => ret im
  | None => raise (broken f)
  end.

(** [Image.save(path, format)]: opens the path for writing, which raises
    when a directory is in the way, and writes the encoding. *)
Definition save `{Imaging} (im : t) (p : Path) (format : string) : M unit :=
  fun w =>
    if bool_decide (p ∈ dirs w) then (Raise IsADirectoryError, w)
    else (Ret tt, set_files (<[p := encode format im]> (files w)) w).

End Image.

Export Image (Imaging, L, RGB, RGBA).

(** ** The script *)

Section Script.

Context `{lib : Imaging}.

(** [Path(__file__)], wherever the script is installed. *)
Variable script_file : Path.

Definition ICON_SIZE : nat := 48.
Definition MAGENTA : Z * Z * Z := (255, 0, 255).
Definition DARK_GRAY : Z * Z * Z := (60, 60, 60).

Definition BASE_DIR : Path :=
  parent (parent script_file) // "src" // "manager" // "resources".
Definition SRC_DIR : Path := BASE_DIR // "material".
Definition DST_DIR : Path := BASE_DIR.

Definition ICONS : list string :=
  ["new_vm"; "edit"; "delete"; "start"; "stop"; "reboot"; "shutdown"]%string.

Definition src_path (name : string) : Path := SRC_DIR // (name +:+ ".png").
Definition dst_path (name : string) : Path := DST_DIR // (name +:+ ".bmp").

(** The lambda of the alpha threshold. *)
Definition threshold (x : Z) : Z := if 128 <? x then 255 else 0.

(** The lambdas of the recolouring, one per channel of [DARK_GRAY]. *)
Definition darken (gray : Z) (x : Z) : Z := if x <? 50 then gray else x.

(** [r, g, b, a = ...]: exactly four values or ValueError. *)
Definition unpack4 {A} (l : list A) : M (A * A * A * A) :=
  match l with
  | [r; g; b; a] => ret (r, g, b, a)
  | _ => raise ValueError
  end.

(** [l[i]]. *)
Definition index {A} (i : nat) (l : list A) : M A := lift IndexError (l !! i).

Definition convert_icon (name : string) : M bool :=
  let src_path := src_path name in
  let dst_path := dst_path name in
  found <- Path_exists src_path ;;
  if negb found then
    print ("  [SKIP] " +:+ path_str src_path +:+ " not found") ;;;
    ret false
  else
    opened <- Image.open src_path ;;
    img <- Image.load opened ;;
    let img := Image.convert RGBA img in
    let img := Image.resize (ICON_SIZE, ICON_SIZE) Image.LANCZOS img in
    rgba <- unpack4 (Image.split img) ;;
    let '(r, g, b, a) := rgba in
    let a := Image.point threshold a in
    let r := Image.point (darken DARK_GRAY.1.1) r in
    let g := Image.point (darken DARK_GRAY.1.2) g in
    let b := Image.point (darken DARK_GRAY.2) b in
    img <- lift ValueError (Image.merge RGBA [r; g; b; a]) ;;
    let result := Image.new RGB (ICON_SIZE, ICON_SIZE) MAGENTA in
    mask <- index 3 (Image.split img) ;;
    result <- lift ValueError (Image.paste result img mask) ;;
    Path_mkdir (parent dst_path) ;;;
    Image.save result dst_path "BMP" ;;;
    print ("  [OK] " +:+ name +:+ ".bmp") ;;;
    ret true.

(** The body of [for name in ICONS], with the counter threaded. *)
Fixpoint for_each (names : list string) (success : nat) : M nat :=
  match names with
  | [] => ret success
  | name :: rest =>
      ok <- convert_icon name ;;
      for_each rest (if ok then S success else success)
  end.

Definition main : M unit :=
  print ("Source: " +:+ path_str SRC_DIR) ;;;
  print ("Output: " +:+ path_str DST_DIR) ;;;
  print "" ;;;
  success <- for_each ICONS 0%nat ;;
  print "" ;;;
  print ("Converted " +:+ pretty success +:+ "/" +:+ pretty (length ICONS)
         +:+ " icons").

End Script.

(** ** What the script computes, stage by stage

    The values the straight-line part of [convert_icon] passes from one
    library call to the next, named so that statements can speak of
    them: the decoded image at icon size, its four channels after the
    two [point] steps, and the picture that is saved. *)

Section Stages.

Context `{lib : Imaging}.

(** After [convert("RGBA")] and [resize]. *)
Definition icon (img : Image.t) : Image.t :=
  Image.resize (ICON_SIZE, ICON_SIZE) Image.LANCZOS (Image.convert RGBA img).

(** One channel of the icon after [point f]. *)
Definition pointed (f : Z -> Z) (c : nat) (img : Image.t) : list byte :=
  map (Image.through (Image.lut f)) (Image.band c (icon img)).

Definition mask (img : Image.t) : list byte := pointed threshold 3 img.
Definition red (img : Image.t) : list byte := pointed (darken DARK_GRAY.1.1) 0 img.
Definition green (img : Image.t) : list byte := pointed (darken DARK_GRAY.1.2) 1 img.
Definition blue (img : Image.t) : list byte := pointed (darken DARK_GRAY.2) 2 img.

(** One band of the canvas after [paste]. *)
Definition keyed (key : Z) (m v : list byte) : list byte :=
  zip_with (fun a u => Image.blend8 a (clip8 key) u) m v.

(** The picture handed to [save]. *)
Definition rendered (img : Image.t) : Image.t :=
  Image.mk RGB (ICON_SIZE, ICON_SIZE)
    [keyed MAGENTA.1.1 (mask img) (red img);
     keyed MAGENTA.1.2 (mask img) (green img);
     keyed MAGENTA.2 (mask img) (blue img)].

Variable script_file : Path.

(** The state [convert_icon] leaves behind for a missing source ... *)
Definition skipped (name : string) (w : World) : World :=
  set_stdout
    (stdout w ++ ["  [SKIP] " +:+ path_str (src_path script_file name) +:+ " not found"])
    w.

(** ... for a source that decodes to [img] ... *)
Definition converted (name : string) (img : Image.t) (w : World) : World :=
  mkWorld
    (<[dst_path script_file name := Image.encode "BMP" (rendered img)]> (files w))
    (dirs w ∪ list_to_set (with_parents (DST_DIR script_file)))
    (stdout w ++ ["  [OK] " +:+ name +:+ ".bmp"]).

(** ... and when [save] raises: [mkdir] has run, nothing else. *)
Definition blocked (w : World) : World :=
  set_dirs (dirs w ∪ list_to_set (with_parents (DST_DIR script_file))) w.

(** The two situations the specification distinguishes for a name: no
    entry [<name>.png] in the source directory, or a regular file there
    that the library decodes. *)
Definition missing (name : string) (w : World) : Prop :=
  path_exists (src_path script_file name) w = false.

Definition valid_source (name : string) (w : World) : Prop :=
  ∃ data img,
    files w !! src_path script_file name = Some data ∧ Image.decode data = Some img.

(** A valid source whose bitmap can be written: no directory sits at the
    destination. *)
Definition convertible (name : string) (w : World) : Prop :=
  valid_source name w ∧ dst_path script_file name ∉ dirs w.

(** The status line a name gets, judged on the state [w]. *)
Definition report (w : World) (name : string) : string :=
  if path_exists (src_path script_file name) w
  then "  [OK] " +:+ name +:+ ".bmp"
  else "  [SKIP] " +:+ path_str (src_path script_file name) +:+ " not found".

(** How many of the configured sources exist in [w]. *)
Definition present (w : World) : nat :=
  length (filter (fun name => path_exists (src_path script_file name) w = true) ICONS).

(** The bytes a call of [convert_icon] writes: the contents of the
    destination file after a call that returned true, nothing otherwise. *)
Definition written (name : string) (w : World) : option (list byte) :=
  match convert_icon script_file name w with
  | (Ret true, w') => files w' !! dst_path script_file name
  | _ => None
  end.

(** What a call for [name] returns, and the state it leaves behind
    when started in [w], as decided by the entries of [w0]. *)
Definition outcome_of (w0 : World) (name : string) : outcome bool :=
  if path_exists (src_path script_file name) w0 then
    match files w0 !! src_path script_file name with
    | Some data =>
        if Image.identify data then
          match Image.decode data with
          | Some _ =>
              if bool_decide (dst_path script_file name ∈ dirs w0)
              then Raise IsADirectoryError else Ret true
          | None => Raise (Image.broken data)
          end
        else Raise UnidentifiedImageError
    | None => Raise IsADirectoryError
    end
  else Ret false.

Definition after (w0 w : World) (name : string) : World :=
  if path_exists (src_path script_file name) w0 then
    match files w0 !! src_path script_file name with
    | Some data =>
        if Image.identify data then
          match Image.decode data with
          | Some img =>
              if bool_decide (dst_path script_file name ∈ dirs w0)
              then blocked w else converted name img w
          | None => w
          end
        else w
    | None => w
    end
  else skipped name w.

(** The loop of [main] over [names], with the sources read from [w0]:
    it stops at the first call that raises. *)
Fixpoint loop (w0 : World) (names : list string) (success : nat) (w : World)
  : outcome nat * World :=
  match names with
  | [] => (Ret success, w)
  | name :: rest =>
      match outcome_of w0 name with
      | Ret ok => loop w0 rest (if ok then S success else success) (after w0 w name)
      | Raise e => (Raise e, after w0 w name)
      end
  end.

(** Two states hold the same sources when every [<name>.png] is
    there or not, and reads the same, in both, and every [<name>.bmp]
    is a directory in both or in neither. *)
Definition same_sources (w0 w : World) : Prop :=
  ∀ name,
    files w !! src_path script_file name = files w0 !! src_path script_file name
    ∧ path_exists (src_path script_file name) w
      = path_exists (src_path script_file name) w0
    ∧ bool_decide (dst_path script_file name ∈ dirs w)
      = bool_decide (dst_path script_file name ∈ dirs w0).

(** The last line [main] prints. *)
Definition summary (success : nat) : string :=
  "Converted " +:+ pretty success +:+ "/" +:+ pretty (length ICONS) +:+ " icons".

Definition header : list string :=
  ["Source: " +:+ path_str (SRC_DIR script_file);
   "Output: " +:+ path_str (DST_DIR script_file);
   ""].

(** A run of [main] on [w] with the sources read from [w0]. *)
Definition batch_from (w0 w : World) : outcome unit * World :=
  match loop w0 ICONS 0%nat (set_stdout (stdout w ++ header) w) with
  | (Ret success, w1) => (Ret tt, set_stdout (stdout w1 ++ [""; summary success]) w1)
  | (Raise e, w1) => (Raise e, w1)
  end.

(** A saved picture of icon format: three bands of 48 x 48 bytes. *)
Definition icon_format (out : Image.t) : Prop :=
  Image.mode out = RGB ∧ Image.size out = (48, 48)%nat
  ∧ length (Image.bands out) = 3%nat
  ∧ Forall (fun b : list byte => length b = (48 * 48)%nat) (Image.bands out).

End Stages.

(** ** An instance to run the script on

    A toy codec and a nearest-neighbour kernel stand in for the
    library's PNG decoder and Lanczos filter; the encoder writes a
    Windows bitmap (24 bits per pixel, rows bottom-up, blue first). *)

Module Demo.

(** Source format: width, height, then the pixels as R G B A. *)
Fixpoint stride {A} (k : nat) (off : nat) (l : list A) (n : nat) : list A :=
  match n with
  | O => []
  | S n' =>
      match l !! off with
      | Some v => v :: stride k off (drop k l) n'
      | None => []
      end
  end.

Definition decode (data : list byte) : option Image.t :=
  match data with
  | w :: h :: body =>
      let sz := (N.to_nat (Byte.to_N w), N.to_nat (Byte.to_N h)) in
      let n := Image.npixels sz in
      if (length body =? 4 * n)%nat
      then Some (Image.mk RGBA sz (map (fun c => stride 4 c body n) (seq 0 4)))
      else None
  | _ => None
  end.

Definition nearest : Image.Resampling :=
  fun im sz c xy =>
    let '(sw, sh) := Image.size im in
    let x := (xy.1 * sw / sz.1)%nat in
    let y := (xy.2 * sh / sz.2)%nat in
    default x00 (Image.band c im !! (y * sw + x)%nat).

Definition le32 (n : nat) : list byte :=
  map (fun k => clip8 (Z.land (Z.shiftr (Z.of_nat n) (8 * Z.of_nat k)) 255))
      (seq 0 4).
Definition le16 (n : nat) : list byte := take 2 (le32 n).

Definition bmp_row (im : Image.t) (y : nat) : list byte :=
  let w := (Image.size im).1 in
  let px x :=
    map (fun c => default x00 (Image.band c im !! (y * w + x)%nat)) [2; 1; 0]%nat in
  let raw := seq 0 w ≫= px in
  raw ++ replicate ((4 - length raw mod 4) mod 4) x00.

Definition encode (format : string) (im : Image.t) : list byte :=
  let '(w, h) := Image.size im in
  let body := rev (seq 0 h) ≫= bmp_row im in
  ["B"; "M"]%byte ++ le32 (54 + length body) ++ le32 0 ++ le32 54
    ++ le32 40 ++ le32 w ++ le32 h ++ le16 1 ++ le16 24 ++ le32 0
    ++ le32 (length body) ++ le32 3780 ++ le32 3780 ++ le32 0 ++ le32 0
    ++ body.

(** The header is the two size bytes. *)
Definition identify (data : list byte) : bool :=
  match data with
  | _ :: _ :: _ => true
  | _ => false
  end.

#[export] Instance lib : Imaging.
Proof.
  refine {| Image.identify := identify; Image.decode := decode;
            Image.broken := fun _ => OSError;
            Image.LANCZOS := nearest; Image.encode := encode |}.
  intros [|w [|h body]] img Hdec; (discriminate Hdec || reflexivity).
Defined.

Definition script : Path := [""; "repo"; "scripts"; "convert_icons.py"]%string.

(** A 2x2 source: opaque black, half-transparent red (alpha 128),
    opaque mid-grey with a dark blue channel, faint white (alpha 129). *)
Definition edit_png : list byte :=
  [x02; x02;
   x00; x00; x00; xff;   xff; x00; x00; x80;
   x32; x31; x80; xff;   xff; xff; xff; x81]%byte.

Definition material : Path := [""; "repo"; "src"; "manager"; "resources"; "material"]%string.

(** Three of the seven sources are present. *)
Definition world3 : World :=
  mkWorld
    (<[material // "edit.png" := edit_png]>
       (<[material // "stop.png" := edit_png]>
          (<[material // "start.png" := edit_png]> ∅)))
    (list_to_set (with_parents material))
    [].

(** What [decode] makes of [edit_png]. *)
Definition edit_img : Image.t :=
  Image.mk RGBA (2, 2)%nat
    [[x00; xff; x32; xff]; [x00; x00; x31; xff];
     [x00; x00; x80; xff]; [xff; x80; xff; x81]]%byte.

(** The same three names, with the second source cut short inside its
    pixel data. *)
Definition world_corrupt : World :=
  mkWorld
    (<[material // "edit.png" := [x02; x02; x00]%byte]>
       (<[material // "stop.png" := edit_png]>
          (<[material // "start.png" := edit_png]> ∅)))
    (list_to_set (with_parents material))
    [].

(** The three sources again, with a directory where [edit.bmp] is to
    be written. *)
Definition world_blocked : World :=
  mkWorld (files world3)
    (list_to_set (with_parents material)
     ∪ {[ [""; "repo"; "src"; "manager"; "resources"; "edit.bmp"]%string ]})
    [].

(** Only [edit.png], and no directory recorded. *)
Definition world1 : World :=
  mkWorld {[material // "edit.png" := edit_png]} ∅ ["earlier output"]%string.

End Demo.


(** * Properties *)

(** ** Bytes and the two library rules the script leans on *)

Lemma to_Z_range (b : byte) : 0 <= to_Z b <= 255.
Proof.
  unfold to_Z. pose proof (Byte.to_N_bounded b). lia.
Qed.

Lemma clip8_to_Z (b : byte) : clip8 (to_Z b) = b.
Proof.
  unfold clip8, to_Z.
  destruct (Z.ltb_spec (Z.of_N (Byte.to_N b)) 0) as [Hneg|_]; [lia|].
  by rewrite N2Z.id, Byte.of_to_N.
Qed.

Lemma to_Z_clip8 (z : Z) : 0 <= z <= 255 -> to_Z (clip8 z) = z.
Proof.
  intros Hz. unfold clip8.
  destruct (Z.ltb_spec z 0) as [Hneg|_]; [lia|].
  destruct (Byte.of_N (Z.to_N z)) as [b|] eqn:Hb.
  - apply Byte.to_of_N in Hb. unfold to_Z. simpl. rewrite Hb. lia.
  - apply Byte.of_N_None_iff in Hb. lia.
Qed.

(** The table built by [point] answers with the lambda's value. *)
Lemma through_lut (f : Z -> Z) (v : byte) :
  Image.through (Image.lut f) v = clip8 (f (to_Z v)).
Proof.
  unfold Image.through, Image.lut.
  pose proof (Byte.to_N_bounded v) as Hv.
  rewrite list_lookup_fmap, lookup_seq_lt by lia.
  simpl. unfold to_Z. by rewrite N_nat_Z.
Qed.

(** A mask of 0 keeps what is there, a mask of 255 copies the source. *)
Lemma blend8_transparent (out inp : byte) : Image.blend8 x00 out inp = out.
Proof.
  unfold Image.blend8. change (to_Z x00) with 0.
  rewrite Z.mul_0_r, Z.add_0_r. destruct out; reflexivity.
Qed.

Lemma blend8_opaque (out inp : byte) : Image.blend8 xff out inp = inp.
Proof.
  unfold Image.blend8. change (255 - to_Z xff) with 0.
  rewrite Z.mul_0_r, Z.add_0_l. destruct inp; reflexivity.
Qed.

(** Row-major indexing. *)
Lemma row_major (w h i : nat) :
  (i < w * h)%nat ->
  (i mod w < w)%nat ∧ (i / w < h)%nat ∧ (i / w * w + i mod w = i)%nat.
Proof.
  intros Hi. assert (w ≠ 0%nat) as Hw by lia.
  split; [by apply Nat.mod_upper_bound|].
  split; [apply Nat.Div0.div_lt_upper_bound; lia|].
  pose proof (Nat.div_mod_eq i w). lia.
Qed.

Lemma row_major_inv (w x y : nat) :
  (x < w)%nat -> ((y * w + x) mod w = x)%nat ∧ ((y * w + x) / w = y)%nat.
Proof.
  intros Hx. split.
  - rewrite Nat.add_comm, Nat.Div0.mod_add. by apply Nat.mod_small.
  - rewrite Nat.add_comm, Nat.div_add by lia. rewrite Nat.div_small by done. lia.
Qed.

(** Pasting a source of the destination's own size blends every pixel. *)
Lemma paste_band_lookup (w h : nat) (m s o : list byte) (i : nat) (a u v : byte) :
  length o = (w * h)%nat ->
  m !! i = Some a -> s !! i = Some u -> o !! i = Some v ->
  Image.paste_band w (w, h) m s o !! i = Some (Image.blend8 a v u).
Proof.
  intros Hlen Hm Hs Ho. unfold Image.paste_band.
  assert (i < w * h)%nat as Hi by (rewrite <- Hlen; by eapply lookup_lt_Some).
  destruct (row_major w h i Hi) as (Hx & Hy & Hxy).
  rewrite lookup_zip_with, lookup_seq_lt, Ho by lia. simpl.
  apply Nat.ltb_lt in Hx, Hy. rewrite Hx, Hy, Hxy, Hm, Hs. done.
Qed.

Lemma paste_band_length (dw : nat) (ssz : nat * nat) (m s o : list byte) :
  length (Image.paste_band dw ssz m s o) = length o.
Proof.
  unfold Image.paste_band. rewrite length_zip_with, length_seq. lia.
Qed.

(** ** The two [point] steps *)

Lemma point_band (f : Z -> Z) (c : nat) (im : Image.t) :
  Image.band c (Image.point f im) = map (Image.through (Image.lut f)) (Image.band c im).
Proof.
  unfold Image.band, Image.point. cbn [Image.bands].
  rewrite list_lookup_fmap. by destruct (Image.bands im !! c).
Qed.

Lemma point_lookup (f : Z -> Z) (c i : nat) (im : Image.t) (v : byte) :
  Image.band c im !! i = Some v ->
  Image.band c (Image.point f im) !! i = Some (clip8 (f (to_Z v))).
Proof.
  intros Hv. by rewrite point_band, list_lookup_fmap, Hv, <- through_lut.
Qed.

(** [point] with the threshold lambda, on any band. *)
Lemma point_threshold (a : Image.t) (c i : nat) (v : byte) :
  Image.band c a !! i = Some v ->
  Image.band c (Image.point threshold a) !! i
  = Some (if 128 <? to_Z v then xff else x00).
Proof.
  intros Hv. rewrite (point_lookup _ _ _ _ _ Hv). unfold threshold.
  by destruct (128 <? to_Z v).
Qed.

(** [point] with a recolouring lambda, on any band. *)
Lemma point_darken (ch : Image.t) (c i : nat) (v : byte) :
  Image.band c ch !! i = Some v ->
  Image.band c (Image.point (darken 60) ch) !! i
  = Some (if to_Z v <? 50 then clip8 60 else v).
Proof.
  intros Hv. rewrite (point_lookup _ _ _ _ _ Hv). unfold darken.
  destruct (to_Z v <? 50); [done|by rewrite clip8_to_Z].
Qed.

Section Pipeline.

Context `{lib : Imaging}.

Lemma icon_bands (img : Image.t) :
  Image.bands (icon img)
  = map (fun c =>
           map (fun i => Image.LANCZOS (Image.convert RGBA img) (ICON_SIZE, ICON_SIZE) c
                           ((i mod ICON_SIZE)%nat, (i / ICON_SIZE)%nat))
               (seq 0 (ICON_SIZE * ICON_SIZE)))
        [0; 1; 2; 3]%nat.
Proof. reflexivity. Qed.

Lemma icon_band_length (img : Image.t) (c : nat) :
  (c < 4)%nat -> length (Image.band c (icon img)) = (ICON_SIZE * ICON_SIZE)%nat.
Proof.
  intros Hc. unfold Image.band. rewrite icon_bands, list_lookup_fmap.
  destruct c as [|[|[|[|c]]]]; [| | | |lia];
    cbn [lookup list_lookup fmap option_fmap option_map default]; unfold id;
    by rewrite length_map, length_seq.
Qed.

Lemma pointed_length (f : Z -> Z) (c : nat) (img : Image.t) :
  (c < 4)%nat -> length (pointed f c img) = (ICON_SIZE * ICON_SIZE)%nat.
Proof.
  intros Hc. unfold pointed. by rewrite length_map, icon_band_length.
Qed.

Lemma mask_length (img : Image.t) : length (mask img) = (ICON_SIZE * ICON_SIZE)%nat.
Proof. unfold mask. apply pointed_length. lia. Qed.

Lemma red_length (img : Image.t) : length (red img) = (ICON_SIZE * ICON_SIZE)%nat.
Proof. unfold red. apply pointed_length. lia. Qed.

Lemma green_length (img : Image.t) : length (green img) = (ICON_SIZE * ICON_SIZE)%nat.
Proof. unfold green. apply pointed_length. lia. Qed.

Lemma blue_length (img : Image.t) : length (blue img) = (ICON_SIZE * ICON_SIZE)%nat.
Proof. unfold blue. apply pointed_length. lia. Qed.

Lemma paste_onto_blank (w h : nat) (m v : list byte) (key : Z) :
  length m = (w * h)%nat -> length v = (w * h)%nat ->
  Image.paste_band w (w, h) m v (replicate (w * h) (clip8 key)) = keyed key m v.
Proof.
  intros Hm Hv. apply list_eq_same_length with (w * h)%nat.
  - unfold keyed. rewrite length_zip_with. lia.
  - by rewrite paste_band_length, length_replicate.
  - intros i x y Hi Hx Hy.
    destruct (lookup_lt_is_Some_2 m i) as [a Ha]; [lia|].
    destruct (lookup_lt_is_Some_2 v i) as [u Hu]; [lia|].
    erewrite paste_band_lookup in Hx; eauto using length_replicate.
    2: { by apply lookup_replicate_2. }
    unfold keyed in Hy. rewrite lookup_zip_with, Ha in Hy. simpl in Hy.
    rewrite Hu in Hy. simpl in Hy. congruence.
Qed.

End Pipeline.

Section Run.

Context `{lib : Imaging}.
Variable script_file : Path.

Lemma parent_joinpath (p : Path) (s : string) : s ≠ ""%string -> parent (p // s) = p.
Proof.
  intros Hs. unfold parent, joinpath.
  destruct p as [|c p]; cbn [app].
  - by destruct s.
  - destruct (p ++ [s]) as [|c' rest] eqn:Hrest; [by destruct p|].
    rewrite <- Hrest. destruct c; apply (removelast_last (c0 :: p))
    || apply (removelast_last (_ :: p)).
Qed.

Lemma parent_dst_path (name : string) :
  parent (dst_path script_file name) = DST_DIR script_file.
Proof. apply parent_joinpath. by destruct name. Qed.

Lemma parent_src_path (name : string) :
  parent (src_path script_file name) = SRC_DIR script_file.
Proof. apply parent_joinpath. by destruct name. Qed.

Lemma src_path_length (name : string) :
  length (src_path script_file name) = (length (DST_DIR script_file) + 2)%nat.
Proof.
  unfold src_path, SRC_DIR, DST_DIR, joinpath. rewrite !length_app. simpl. lia.
Qed.

Lemma dst_path_length (name : string) :
  length (dst_path script_file name) = (length (DST_DIR script_file) + 1)%nat.
Proof. unfold dst_path, joinpath. rewrite length_app. simpl. lia. Qed.

(** No source is a destination, and no source is one of the
    directories [mkdir] provides. *)
Lemma src_not_dst (name other : string) :
  dst_path script_file name ≠ src_path script_file other.
Proof.
  intros Heq. apply (f_equal length) in Heq.
  rewrite src_path_length, dst_path_length in Heq. lia.
Qed.

Lemma src_not_made (name : string) :
  src_path script_file name ∉ with_parents (DST_DIR script_file).
Proof.
  unfold with_parents. intros Hin.
  apply list_elem_of_fmap in Hin as (k & Heq & _).
  apply (f_equal length) in Heq. rewrite src_path_length, length_take in Heq. lia.
Qed.

Lemma dst_not_made (name : string) :
  dst_path script_file name ∉ with_parents (DST_DIR script_file).
Proof.
  unfold with_parents. intros Hin.
  apply list_elem_of_fmap in Hin as (k & Heq & _).
  apply (f_equal length) in Heq. rewrite dst_path_length, length_take in Heq. lia.
Qed.


Lemma split_icon (img : Image.t) :
  Image.split (icon img)
  = map (fun c => Image.mk L (ICON_SIZE, ICON_SIZE) [Image.band c (icon img)])
        [0; 1; 2; 3]%nat.
Proof. reflexivity. Qed.

Lemma new_canvas :
  Image.new RGB (ICON_SIZE, ICON_SIZE) MAGENTA
  = Image.mk RGB (ICON_SIZE, ICON_SIZE)
      (map (fun key => replicate (ICON_SIZE * ICON_SIZE) (clip8 key))
           [MAGENTA.1.1; MAGENTA.1.2; MAGENTA.2]).
Proof. reflexivity. Qed.

(** A source that decodes brings the call to its last four lines, with
    the picture to save worked out. *)
Lemma convert_icon_decoded (name : string) (w : World) (data : list byte) (img : Image.t) :
  files w !! src_path script_file name = Some data ->
  Image.decode data = Some img ->
  convert_icon script_file name w
  = (Path_mkdir (DST_DIR script_file) ;;;
     Image.save (rendered img) (dst_path script_file name) "BMP" ;;;
     print ("  [OK] " +:+ name +:+ ".bmp") ;;;
     ret true) w.
Proof.
  intros Hfile Hdec. unfold convert_icon.
  unfold bind at 1. unfold Path_exists, path_exists. rewrite Hfile. cbn [negb].
  unfold bind at 1. unfold Image.open.
  rewrite Hfile, (Image.decode_identified _ _ Hdec).
  unfold bind at 1. unfold Image.load. rewrite Hdec. cbn [ret].
  change (Image.resize _ _ _) with (icon img).
  rewrite split_icon. cbn [map unpack4]. unfold bind at 1. cbn [ret].
  unfold Image.point. cbn [Image.mode Image.size Image.bands map].
  fold (pointed (darken DARK_GRAY.1.1) 0 img) (pointed (darken DARK_GRAY.1.2) 1 img)
       (pointed (darken DARK_GRAY.2) 2 img) (pointed threshold 3 img).
  fold (red img) (green img) (blue img) (mask img).
  unfold Image.merge. rewrite bool_decide_eq_true_2.
  2: { split; [reflexivity|]. repeat (apply Forall_cons_2; [by split|]). apply Forall_nil_2. }
  cbn [lift]. unfold bind at 1. cbn [ret Image.size].
  change (_ ≫= Image.bands) with [red img; green img; blue img; mask img].
  unfold Image.split, index. cbn [Image.bands Image.size map lookup list_lookup lift].
  unfold bind at 1. cbn [ret].
  rewrite new_canvas.
  unfold Image.paste. rewrite bool_decide_eq_true_2 by done.
  unfold Image.band.
  cbn [Image.mode Image.size Image.bands map zip_with fst snd lookup list_lookup
       default from_option]. unfold id.
  rewrite (paste_onto_blank _ _ _ _ _ (mask_length img) (red_length img)).
  rewrite (paste_onto_blank _ _ _ _ _ (mask_length img) (green_length img)).
  rewrite (paste_onto_blank _ _ _ _ _ (mask_length img) (blue_length img)).
  cbn [lift]. unfold bind at 1. cbn [ret].
  rewrite parent_dst_path.
  reflexivity.
Qed.

Lemma dst_dir_after_mkdir (name : string) (w : World) :
  bool_decide (dst_path script_file name
               ∈ dirs w ∪ list_to_set (with_parents (DST_DIR script_file)))
  = bool_decide (dst_path script_file name ∈ dirs w).
Proof.
  apply bool_decide_ext. rewrite elem_of_union, elem_of_list_to_set.
  pose proof (dst_not_made name). tauto.
Qed.

Lemma convert_icon_present (name : string) (w : World) (data : list byte) (img : Image.t) :
  files w !! src_path script_file name = Some data ->
  Image.decode data = Some img ->
  dst_path script_file name ∉ dirs w ->
  convert_icon script_file name w = (Ret true, converted script_file name img w).
Proof.
  intros Hfile Hdec Hdst. rewrite (convert_icon_decoded name w data img Hfile Hdec).
  unfold bind, Path_mkdir, Image.save. cbn [dirs set_dirs].
  rewrite dst_dir_after_mkdir, bool_decide_eq_false_2 by done.
  reflexivity.
Qed.

Lemma convert_icon_blocked (name : string) (w : World) (data : list byte) (img : Image.t) :
  files w !! src_path script_file name = Some data ->
  Image.decode data = Some img ->
  dst_path script_file name ∈ dirs w ->
  convert_icon script_file name w = (Raise IsADirectoryError, blocked script_file w).
Proof.
  intros Hfile Hdec Hdst. rewrite (convert_icon_decoded name w data img Hfile Hdec).
  unfold bind, Path_mkdir, Image.save. cbn [dirs set_dirs].
  rewrite dst_dir_after_mkdir, bool_decide_eq_true_2 by done.
  reflexivity.
Qed.

Lemma convert_icon_missing (name : string) (w : World) :
  missing script_file name w ->
  convert_icon script_file name w = (Ret false, skipped script_file name w).
Proof.
  unfold missing. intros Hmiss. unfold convert_icon, bind, Path_exists.
  rewrite Hmiss. reflexivity.
Qed.

(** Every way a call of [convert_icon] can go. *)
Lemma convert_icon_spec (name : string) (w : World) :
  convert_icon script_file name w
  = (outcome_of script_file w name, after script_file w w name).
Proof.
  unfold outcome_of, after.
  destruct (path_exists (src_path script_file name) w) eqn:Hex;
    [|by apply convert_icon_missing].
  destruct (files w !! src_path script_file name) as [data|] eqn:Hfile.
  - destruct (Image.decode data) as [img|] eqn:Hdec.
    + rewrite (Image.decode_identified _ _ Hdec).
      destruct (bool_decide (dst_path script_file name ∈ dirs w)) eqn:Hdst.
      * apply bool_decide_eq_true in Hdst. by eapply convert_icon_blocked.
      * apply bool_decide_eq_false in Hdst. by eapply convert_icon_present.
    + unfold convert_icon. unfold bind at 1. unfold Path_exists. rewrite Hex.
      cbn [negb]. unfold bind at 1. unfold Image.open. rewrite Hfile.
      destruct (Image.identify data); [|done].
      unfold bind at 1. unfold Image.load. by rewrite Hdec.
  - unfold convert_icon. unfold bind at 1. unfold Path_exists. rewrite Hex.
    cbn [negb]. unfold bind at 1. unfold Image.open. rewrite Hfile.
    unfold path_exists in Hex. rewrite Hfile in Hex. by rewrite Hex.
Qed.

Lemma valid_source_exists (name : string) (w : World) :
  valid_source script_file name w -> path_exists (src_path script_file name) w = true.
Proof. intros (data & img & Hfile & _). unfold path_exists. by rewrite Hfile. Qed.

Lemma convert_icon_true_inv (name : string) (w w' : World) :
  convert_icon script_file name w = (Ret true, w') ->
  ∃ data img,
    files w !! src_path script_file name = Some data ∧ Image.decode data = Some img
    ∧ (dst_path script_file name ∉ dirs w)
    ∧ w' = converted script_file name img w.
Proof.
  rewrite convert_icon_spec. unfold outcome_of, after. intros Hrun.
  destruct (path_exists _ w); [|discriminate].
  destruct (files w !! _) as [data|] eqn:Hfile; [|discriminate].
  destruct (Image.identify data); [|discriminate].
  destruct (Image.decode data) as [img|] eqn:Hdec; [|discriminate].
  destruct (bool_decide (dst_path script_file name ∈ dirs w)) eqn:Hdst; [discriminate|].
  apply bool_decide_eq_false in Hdst.
  exists data, img. by inversion Hrun.
Qed.

Lemma keyed_length (key : Z) (m v : list byte) (n : nat) :
  length m = n -> length v = n -> length (keyed key m v) = n.
Proof. intros Hm Hv. unfold keyed. rewrite length_zip_with. lia. Qed.

Lemma rendered_format (img : Image.t) : icon_format (rendered img).
Proof.
  unfold icon_format, rendered. cbn [Image.mode Image.size Image.bands length].
  do 3 (split; [reflexivity|]).
  change (48 * 48)%nat with (ICON_SIZE * ICON_SIZE)%nat.
  pose proof (mask_length img) as Hm.
  apply Forall_cons_2; [by apply keyed_length, red_length|].
  apply Forall_cons_2; [by apply keyed_length, green_length|].
  apply Forall_cons_2; [by apply keyed_length, blue_length|].
  apply Forall_nil_2.
Qed.

(** ** The converter on a missing source *)

(** C1: for a name with no [<name>.png] in the source directory,
    [convert_icon] returns false without raising, prints the skip
    notice, and leaves every file as it was: no output file is
    written. *)
Theorem convert_icon_missing_source (name : string) (w : World) :
  missing script_file name w ->
  ∃ w',
    convert_icon script_file name w = (Ret false, w')
    ∧ stdout w' = stdout w
                  ++ ["  [SKIP] " +:+ path_str (src_path script_file name) +:+ " not found"]
    ∧ files w' = files w
    ∧ files w' !! dst_path script_file name = files w !! dst_path script_file name.
Proof.
  intros Hmiss. exists (skipped script_file name w).
  by rewrite convert_icon_missing.
Qed.

Lemma dst_dir_made : DST_DIR script_file ∈ with_parents (DST_DIR script_file).
Proof.
  unfold with_parents. apply list_elem_of_fmap.
  exists (length (DST_DIR script_file)). split; [by rewrite firstn_all|].
  apply elem_of_seq. unfold DST_DIR, BASE_DIR, joinpath.
  rewrite !length_app. simpl. lia.
Qed.

(** C9: for a missing source nothing in the file system changes, and
    the destination directory is not created: [mkdir] sits after the
    existence check, on the path that a present source takes, where it
    does provide the directory (before [save], so also when [save]
    raises). *)
Theorem missing_source_leaves_filesystem (name : string) (w : World) :
  (missing script_file name w ->
   ∃ w',
     convert_icon script_file name w = (Ret false, w')
     ∧ files w' = files w ∧ dirs w' = dirs w
     ∧ (DST_DIR script_file ∉ dirs w -> DST_DIR script_file ∉ dirs w'))
  ∧ (valid_source script_file name w ->
     DST_DIR script_file ∈ dirs (convert_icon script_file name w).2
     ∧ (dst_path script_file name ∉ dirs w ->
        (convert_icon script_file name w).1 = Ret true)).
Proof.
  split.
  - intros Hmiss. exists (skipped script_file name w).
    by rewrite convert_icon_missing.
  - intros (data & img & Hfile & Hdec). split.
    + destruct (decide (dst_path script_file name ∈ dirs w)) as [Hdst|Hdst].
      * rewrite (convert_icon_blocked name w data img Hfile Hdec Hdst).
        apply elem_of_union_r, elem_of_list_to_set, dst_dir_made.
      * rewrite (convert_icon_present name w data img Hfile Hdec Hdst).
        apply elem_of_union_r, elem_of_list_to_set, dst_dir_made.
    + intros Hdst. by rewrite (convert_icon_present name w data img Hfile Hdec Hdst).
Qed.

(** ** The format of what is saved *)

(** C2, as amended: when the source exists and decodes and no directory
    sits at the destination, [convert_icon] returns true and the file
    it writes is the encoding of a 48 x 48 picture with three colour
    bands and no alpha band; and whenever [convert_icon] returns true,
    the file it wrote is of that format. *)
Theorem convert_icon_output_format (name : string) (w : World) :
  (convertible script_file name w ->
   ∃ w' out,
     convert_icon script_file name w = (Ret true, w')
     ∧ files w' !! dst_path script_file name = Some (Image.encode "BMP" out)
     ∧ icon_format out)
  ∧ (∀ w',
       convert_icon script_file name w = (Ret true, w') ->
       ∃ out,
         files w' !! dst_path script_file name = Some (Image.encode "BMP" out)
         ∧ icon_format out).
Proof.
  split.
  - intros [(data & img & Hfile & Hdec) Hdst].
    exists (converted script_file name img w), (rendered img).
    split; [by apply convert_icon_present with data|].
    split; [apply lookup_insert_eq|apply rendered_format].
  - intros w' Hrun.
    destruct (convert_icon_true_inv _ _ _ Hrun) as (data & img & _ & _ & _ & ->).
    exists (rendered img).
    split; [apply lookup_insert_eq|apply rendered_format].
Qed.

(** ** Pixel by pixel *)

Lemma pixel_index (x y : nat) :
  (x < ICON_SIZE)%nat -> (y < ICON_SIZE)%nat ->
  (y * ICON_SIZE + x < ICON_SIZE * ICON_SIZE)%nat.
Proof. nia. Qed.

Lemma in_icon (x y : nat) :
  (x < ICON_SIZE)%nat -> (y < ICON_SIZE)%nat ->
  (x <? ICON_SIZE)%nat && (y <? ICON_SIZE)%nat = true.
Proof.
  intros Hx Hy. apply andb_true_intro. split; by apply Nat.ltb_lt.
Qed.

(** A pixel of the icon is what the kernel gives for its coordinate. *)
Lemma icon_band_lookup (img : Image.t) (c x y : nat) :
  (c < 4)%nat -> (x < ICON_SIZE)%nat -> (y < ICON_SIZE)%nat ->
  Image.band c (icon img) !! (y * ICON_SIZE + x)%nat
  = Some (Image.LANCZOS (Image.convert RGBA img) (ICON_SIZE, ICON_SIZE) c (x, y)).
Proof.
  intros Hc Hx Hy. pose proof (pixel_index x y Hx Hy) as Hi.
  destruct (row_major_inv ICON_SIZE x y Hx) as [Hmod Hdiv].
  unfold Image.band. rewrite icon_bands, list_lookup_fmap.
  destruct c as [|[|[|[|c]]]]; [| | | |lia];
    cbn [lookup list_lookup fmap option_fmap option_map default from_option];
    unfold id; rewrite list_lookup_fmap, lookup_seq_lt by done;
    cbn [fmap option_fmap option_map]; by rewrite Nat.add_0_l, Hmod, Hdiv.
Qed.

Lemma icon_pixel (img : Image.t) (x y : nat) :
  (x < ICON_SIZE)%nat -> (y < ICON_SIZE)%nat ->
  Image.getpixel (icon img) (x, y)
  = Some (map (fun c => Image.LANCZOS (Image.convert RGBA img) (ICON_SIZE, ICON_SIZE) c (x, y))
              [0; 1; 2; 3]%nat).
Proof.
  intros Hx Hy. unfold Image.getpixel.
  change (Image.size (icon img)) with (ICON_SIZE, ICON_SIZE). cbn [fst snd].
  rewrite in_icon by done.
  pose proof (icon_band_lookup img 0 x y) as H0.
  pose proof (icon_band_lookup img 1 x y) as H1.
  pose proof (icon_band_lookup img 2 x y) as H2.
  pose proof (icon_band_lookup img 3 x y) as H3.
  unfold Image.band in H0, H1, H2, H3.
  destruct (Image.bands (icon img)) as [|b0 [|b1 [|b2 [|b3 [|b4 bs]]]]] eqn:Hb;
    try discriminate (f_equal length Hb).
  cbn [lookup list_lookup default from_option] in H0, H1, H2, H3. unfold id in *.
  cbn [mapM]. rewrite H0, H1, H2, H3 by (done || lia). reflexivity.
Qed.

Lemma pointed_lookup (f : Z -> Z) (img : Image.t) (c x y : nat) :
  (c < 4)%nat -> (x < ICON_SIZE)%nat -> (y < ICON_SIZE)%nat ->
  pointed f c img !! (y * ICON_SIZE + x)%nat
  = Some (Image.through (Image.lut f)
            (Image.LANCZOS (Image.convert RGBA img) (ICON_SIZE, ICON_SIZE) c (x, y))).
Proof.
  intros Hc Hx Hy. unfold pointed.
  by rewrite list_lookup_fmap, icon_band_lookup.
Qed.

(** A pixel of the saved picture: the canvas colour blended with the
    recoloured icon pixel through the thresholded alpha. *)
Lemma rendered_pixel (img : Image.t) (x y : nat) :
  (x < ICON_SIZE)%nat -> (y < ICON_SIZE)%nat ->
  let K c := Image.LANCZOS (Image.convert RGBA img) (ICON_SIZE, ICON_SIZE) c (x, y) in
  let alpha := Image.through (Image.lut threshold) (K 3%nat) in
  Image.getpixel (rendered img) (x, y)
  = Some [Image.blend8 alpha (clip8 MAGENTA.1.1)
            (Image.through (Image.lut (darken DARK_GRAY.1.1)) (K 0%nat));
          Image.blend8 alpha (clip8 MAGENTA.1.2)
            (Image.through (Image.lut (darken DARK_GRAY.1.2)) (K 1%nat));
          Image.blend8 alpha (clip8 MAGENTA.2)
            (Image.through (Image.lut (darken DARK_GRAY.2)) (K 2%nat))].
Proof.
  intros Hx Hy K alpha. unfold Image.getpixel, rendered.
  cbn [Image.size Image.bands fst snd]. rewrite in_icon by done.
  unfold keyed, mask, red, green, blue. cbn [mapM].
  rewrite !lookup_zip_with, !pointed_lookup by (done || lia).
  reflexivity.
Qed.

Lemma threshold_byte (a : byte) :
  Image.through (Image.lut threshold) a = if 128 <? to_Z a then xff else x00.
Proof. rewrite through_lut. unfold threshold. by destruct (128 <? to_Z a). Qed.

Lemma darken_byte (v : byte) :
  Image.through (Image.lut (darken 60)) v = if to_Z v <? 50 then clip8 60 else v.
Proof.
  rewrite through_lut. unfold darken.
  destruct (to_Z v <? 50); [reflexivity|apply clip8_to_Z].
Qed.

Lemma darken_byte_bright (v : byte) :
  50 <= to_Z (Image.through (Image.lut (darken 60)) v).
Proof.
  rewrite darken_byte. destruct (Z.ltb_spec (to_Z v) 50); [by vm_compute|done].
Qed.

(** C5: in the saved 48 x 48 picture, a pixel whose thresholded alpha
    is opaque carries the recoloured colour of the icon pixel, and a
    pixel whose thresholded alpha is transparent carries magenta
    (255, 0, 255); so where the icon is opaque and black (alpha above
    128, every channel below 50) the picture is (60, 60, 60), and
    where it is transparent (alpha up to 128) the picture is magenta.
    (The call is one that saves: no directory sits at the destination.) *)
Theorem composite_pixels (name : string) (w : World) (data : list byte) (img : Image.t) :
  files w !! src_path script_file name = Some data ->
  Image.decode data = Some img ->
  dst_path script_file name ∉ dirs w ->
  ∃ w' out,
    convert_icon script_file name w = (Ret true, w')
    ∧ files w' !! dst_path script_file name = Some (Image.encode "BMP" out)
    ∧ Image.size out = (48, 48)%nat
    ∧ ∀ x y, (x < 48)%nat -> (y < 48)%nat ->
        ∃ r g b a,
          Image.getpixel (icon img) (x, y) = Some [r; g; b; a]
          ∧ (let alpha := Image.through (Image.lut threshold) a in
             let colour := [Image.through (Image.lut (darken DARK_GRAY.1.1)) r;
                            Image.through (Image.lut (darken DARK_GRAY.1.2)) g;
                            Image.through (Image.lut (darken DARK_GRAY.2)) b] in
             alpha = xff ∧ Image.getpixel out (x, y) = Some colour
             ∨ alpha = x00 ∧ Image.getpixel out (x, y) = Some (map clip8 [255; 0; 255]))
          ∧ (128 < to_Z a -> to_Z r < 50 -> to_Z g < 50 -> to_Z b < 50 ->
             Image.getpixel out (x, y) = Some (map clip8 [60; 60; 60]))
          ∧ (to_Z a <= 128 ->
             Image.getpixel out (x, y) = Some (map clip8 [255; 0; 255])).
Proof.
  intros Hfile Hdec Hdst.
  exists (converted script_file name img w), (rendered img).
  split; [by apply convert_icon_present with data|].
  split; [apply lookup_insert_eq|]. split; [reflexivity|].
  intros x y Hx Hy.
  pose (K c := Image.LANCZOS (Image.convert RGBA img) (ICON_SIZE, ICON_SIZE) c (x, y)).
  exists (K 0%nat), (K 1%nat), (K 2%nat), (K 3%nat).
  split; [by apply icon_pixel|].
  rewrite rendered_pixel by done. fold (K 0%nat) (K 1%nat) (K 2%nat) (K 3%nat).
  cbn zeta. rewrite threshold_byte.
  split; [|split].
  - destruct (128 <? to_Z (K 3%nat)).
    + left. split; [reflexivity|]. by rewrite !blend8_opaque.
    + right. split; [reflexivity|]. by rewrite !blend8_transparent.
  - intros Ha Hr Hg Hb. apply Z.ltb_lt in Ha, Hr, Hg, Hb.
    rewrite Ha, !blend8_opaque. unfold DARK_GRAY. cbn [fst snd].
    by rewrite !darken_byte, Hr, Hg, Hb.
  - intros Ha. apply Z.ltb_ge in Ha. rewrite Ha.
    by rewrite !blend8_transparent.
Qed.

(** C10: every pixel of a saved picture is either exactly magenta
    (255, 0, 255) or has each of its three channel values at 50 or
    above. *)
Theorem output_pixels_magenta_or_bright (name : string) (w w' : World) :
  convert_icon script_file name w = (Ret true, w') ->
  ∃ out,
    files w' !! dst_path script_file name = Some (Image.encode "BMP" out)
    ∧ ∀ x y, (x < 48)%nat -> (y < 48)%nat ->
        ∃ px,
          Image.getpixel out (x, y) = Some px
          ∧ (px = map clip8 [255; 0; 255] ∨ Forall (fun v => 50 <= to_Z v) px).
Proof.
  intros Hrun.
  destruct (convert_icon_true_inv _ _ _ Hrun) as (data & img & _ & _ & _ & ->).
  exists (rendered img). split; [apply lookup_insert_eq|].
  intros x y Hx Hy. eexists. split; [by apply rendered_pixel|].
  rewrite threshold_byte.
  destruct (128 <? to_Z _).
  - right. rewrite !blend8_opaque.
    repeat (apply Forall_cons_2; [apply darken_byte_bright|]). apply Forall_nil_2.
  - left. by rewrite !blend8_transparent.
Qed.

(** ** The two [point] steps inside the call *)

(** The channels the script splits the icon into, pixel by pixel, before
    and after [point f]. *)
Lemma channel_pixel (f : Z -> Z) (img : Image.t) (c x y : nat) :
  (c < 4)%nat -> (x < ICON_SIZE)%nat -> (y < ICON_SIZE)%nat ->
  let K := Image.LANCZOS (Image.convert RGBA img) (ICON_SIZE, ICON_SIZE) c (x, y) in
  ∃ chan,
    Image.split (icon img) !! c = Some chan
    ∧ Image.getpixel chan (x, y) = Some [K]
    ∧ Image.getpixel (Image.point f chan) (x, y)
      = Some [Image.through (Image.lut f) K].
Proof.
  intros Hc Hx Hy K.
  exists (Image.mk L (ICON_SIZE, ICON_SIZE) [Image.band c (icon img)]).
  split.
  { rewrite split_icon. by destruct c as [|[|[|[|c]]]]; [| | | |lia]. }
  unfold Image.getpixel, Image.point. cbn [Image.size Image.bands Image.mode fst snd map].
  rewrite in_icon by done. cbn [mapM].
  rewrite list_lookup_fmap, icon_band_lookup by done. done.
Qed.

(** C3: the alpha-threshold step of [convert_icon].  The band the call
    thresholds is the alpha band of the resized icon; [point] sends
    every alpha above 128 to 255 and every alpha up to 128 to 0, so 128
    gives 0 and 129 gives 255; and the thresholded value is the stencil
    through which the pixel of the saved picture is blended. *)
Theorem convert_icon_alpha_threshold
    (name : string) (w : World) (data : list byte) (img : Image.t) :
  files w !! src_path script_file name = Some data ->
  Image.decode data = Some img ->
  dst_path script_file name ∉ dirs w ->
  ∃ w' out alpha,
    convert_icon script_file name w = (Ret true, w')
    ∧ files w' !! dst_path script_file name = Some (Image.encode "BMP" out)
    ∧ Image.split (icon img) !! 3%nat = Some alpha
    ∧ ∀ x y, (x < 48)%nat -> (y < 48)%nat ->
        ∃ r g b a m,
          Image.getpixel (icon img) (x, y) = Some [r; g; b; a]
          ∧ Image.getpixel alpha (x, y) = Some [a]
          ∧ Image.getpixel (Image.point threshold alpha) (x, y) = Some [m]
          ∧ (128 < to_Z a -> to_Z m = 255)
          ∧ (to_Z a <= 128 -> to_Z m = 0)
          ∧ (to_Z a = 128 -> to_Z m = 0)
          ∧ (to_Z a = 129 -> to_Z m = 255)
          ∧ Image.getpixel out (x, y)
            = Some [Image.blend8 m (clip8 MAGENTA.1.1)
                      (Image.through (Image.lut (darken DARK_GRAY.1.1)) r);
                    Image.blend8 m (clip8 MAGENTA.1.2)
                      (Image.through (Image.lut (darken DARK_GRAY.1.2)) g);
                    Image.blend8 m (clip8 MAGENTA.2)
                      (Image.through (Image.lut (darken DARK_GRAY.2)) b)].
Proof.
  intros Hfile Hdec Hdst.
  destruct (channel_pixel threshold img 3 0 0) as (alpha & Halpha & _);
    [lia|unfold ICON_SIZE; lia|unfold ICON_SIZE; lia|].
  exists (converted script_file name img w), (rendered img), alpha.
  split; [by apply convert_icon_present with data|].
  split; [apply lookup_insert_eq|]. split; [exact Halpha|].
  intros x y Hx Hy.
  pose (K c := Image.LANCZOS (Image.convert RGBA img) (ICON_SIZE, ICON_SIZE) c (x, y)).
  destruct (channel_pixel threshold img 3 x y) as (alpha' & Halpha' & Hpx & Hpx');
    [lia|done|done|].
  rewrite Halpha in Halpha'. injection Halpha' as <-.
  exists (K 0%nat), (K 1%nat), (K 2%nat), (K 3%nat),
    (Image.through (Image.lut threshold) (K 3%nat)).
  split; [by apply icon_pixel|]. split; [exact Hpx|]. split; [exact Hpx'|].
  rewrite threshold_byte.
  split; [intros Ha; apply Z.ltb_lt in Ha; by rewrite Ha|].
  split; [intros Ha; apply Z.ltb_ge in Ha; by rewrite Ha|].
  split; [intros Ha; by rewrite Ha|]. split; [intros Ha; by rewrite Ha|].
  rewrite <- threshold_byte. by apply rendered_pixel.
Qed.

(** C4: the recolouring step of [convert_icon].  The call sends each of
    the red, green and blue bands of the resized icon through [point]
    on its own: a value below 50 becomes 60 and a value of 50 or more
    stays, so 49 becomes 60 and 50 stays 50, whatever the other two
    channels hold; and the recoloured values are the colour an opaque
    pixel of the saved picture carries. *)
Theorem convert_icon_recolor
    (name : string) (w : World) (data : list byte) (img : Image.t) :
  files w !! src_path script_file name = Some data ->
  Image.decode data = Some img ->
  dst_path script_file name ∉ dirs w ->
  ∃ w' out red0 green0 blue0,
    convert_icon script_file name w = (Ret true, w')
    ∧ files w' !! dst_path script_file name = Some (Image.encode "BMP" out)
    ∧ Image.split (icon img) !! 0%nat = Some red0
    ∧ Image.split (icon img) !! 1%nat = Some green0
    ∧ Image.split (icon img) !! 2%nat = Some blue0
    ∧ ∀ x y, (x < 48)%nat -> (y < 48)%nat ->
        ∃ r g b a r' g' b',
          Image.getpixel (icon img) (x, y) = Some [r; g; b; a]
          ∧ Image.getpixel red0 (x, y) = Some [r]
          ∧ Image.getpixel green0 (x, y) = Some [g]
          ∧ Image.getpixel blue0 (x, y) = Some [b]
          ∧ Image.getpixel (Image.point (darken DARK_GRAY.1.1) red0) (x, y) = Some [r']
          ∧ Image.getpixel (Image.point (darken DARK_GRAY.1.2) green0) (x, y) = Some [g']
          ∧ Image.getpixel (Image.point (darken DARK_GRAY.2) blue0) (x, y) = Some [b']
          ∧ (∀ v v', (v, v') ∈ [(r, r'); (g, g'); (b, b')] ->
                     (to_Z v < 50 -> to_Z v' = 60)
                     ∧ (50 <= to_Z v -> v' = v)
                     ∧ (to_Z v = 49 -> to_Z v' = 60)
                     ∧ (to_Z v = 50 -> to_Z v' = 50))
          ∧ (128 < to_Z a -> Image.getpixel out (x, y) = Some [r'; g'; b']).
Proof.
  intros Hfile Hdec Hdst.
  assert (0 < ICON_SIZE)%nat as Hpos by (unfold ICON_SIZE; lia).
  destruct (channel_pixel (darken DARK_GRAY.1.1) img 0 0 0) as (red0 & Hred & _);
    [lia|done|done|].
  destruct (channel_pixel (darken DARK_GRAY.1.2) img 1 0 0) as (green0 & Hgreen & _);
    [lia|done|done|].
  destruct (channel_pixel (darken DARK_GRAY.2) img 2 0 0) as (blue0 & Hblue & _);
    [lia|done|done|].
  exists (converted script_file name img w), (rendered img), red0, green0, blue0.
  split; [by apply convert_icon_present with data|].
  split; [apply lookup_insert_eq|]. do 3 (split; [done|]).
  intros x y Hx Hy.
  pose (K c := Image.LANCZOS (Image.convert RGBA img) (ICON_SIZE, ICON_SIZE) c (x, y)).
  destruct (channel_pixel (darken DARK_GRAY.1.1) img 0 x y) as (c0 & H0 & Hr & Hr');
    [lia|done|done|].
  destruct (channel_pixel (darken DARK_GRAY.1.2) img 1 x y) as (c1 & H1 & Hg & Hg');
    [lia|done|done|].
  destruct (channel_pixel (darken DARK_GRAY.2) img 2 x y) as (c2 & H2 & Hb & Hb');
    [lia|done|done|].
  rewrite Hred in H0. rewrite Hgreen in H1. rewrite Hblue in H2.
  injection H0 as <-. injection H1 as <-. injection H2 as <-.
  exists (K 0%nat), (K 1%nat), (K 2%nat), (K 3%nat),
    (Image.through (Image.lut (darken 60)) (K 0%nat)),
    (Image.through (Image.lut (darken 60)) (K 1%nat)),
    (Image.through (Image.lut (darken 60)) (K 2%nat)).
  split; [by apply icon_pixel|].
  do 6 (split; [done|]). split.
  - intros v v' Hin.
    assert (v' = Image.through (Image.lut (darken 60)) v) as ->.
    { repeat (apply elem_of_cons in Hin as [Heq|Hin]; [by injection Heq as -> ->|]).
      by apply elem_of_nil in Hin. }
    rewrite darken_byte.
    split; [intros Hv; apply Z.ltb_lt in Hv; by rewrite Hv|].
    split; [intros Hv; apply Z.ltb_ge in Hv; by rewrite Hv|].
    split; intros Hv; by rewrite Hv.
  - intros Ha. apply Z.ltb_lt in Ha.
    rewrite rendered_pixel by done. fold (K 0%nat) (K 1%nat) (K 2%nat) (K 3%nat).
    cbn zeta. by rewrite threshold_byte, Ha, !blend8_opaque.
Qed.

End Run.

(** ** The batch *)

Section Batch.

Context `{lib : Imaging}.
Variable script_file : Path.

Lemma same_sources_refl (w : World) : same_sources script_file w w.
Proof. by intros name. Qed.

Lemma same_sources_trans (w0 w1 w2 : World) :
  same_sources script_file w0 w1 -> same_sources script_file w1 w2 ->
  same_sources script_file w0 w2.
Proof.
  intros H01 H12 name.
  destruct (H01 name) as (? & ? & ?), (H12 name) as (? & ? & ?).
  repeat split; congruence.
Qed.

Lemma same_sources_stdout (w : World) (lines : list string) :
  same_sources script_file w (set_stdout lines w).
Proof. by intros name. Qed.

Lemma same_sources_blocked (w : World) :
  same_sources script_file w (blocked script_file w).
Proof.
  intros other. unfold path_exists, blocked. cbn [files dirs set_dirs].
  split; [done|]. split; [|apply dst_dir_after_mkdir].
  destruct (files w !! src_path script_file other); [done|].
  apply bool_decide_ext. rewrite elem_of_union, elem_of_list_to_set.
  pose proof (src_not_made script_file other). tauto.
Qed.

Lemma same_sources_converted (name : string) (img : Image.t) (w : World) :
  same_sources script_file w (converted script_file name img w).
Proof.
  intros other. unfold path_exists, converted. cbn [files dirs].
  rewrite lookup_insert_ne by apply src_not_dst. split; [done|].
  split; [|apply dst_dir_after_mkdir].
  destruct (files w !! src_path script_file other); [done|].
  apply bool_decide_ext. rewrite elem_of_union, elem_of_list_to_set.
  pose proof (src_not_made script_file other). tauto.
Qed.

(** The four shapes of the state a call leaves behind; which one it is
    does not depend on the state the call starts from. *)
Lemma after_cases (w0 : World) (name : string) :
  (∀ w, after script_file w0 w name = w)
  ∨ (∀ w, after script_file w0 w name = skipped script_file name w)
  ∨ (∀ w, after script_file w0 w name = blocked script_file w)
  ∨ (∃ img, ∀ w, after script_file w0 w name = converted script_file name img w).
Proof.
  unfold after.
  destruct (path_exists _ w0); [|by right; left].
  destruct (files w0 !! _) as [data|]; [|by left].
  destruct (Image.identify data); [|by left].
  destruct (Image.decode data) as [img|]; [|by left].
  destruct (bool_decide _); [by right; right; left|].
  right; right; right. by exists img.
Qed.

Lemma after_same_state (name : string) (w0 w : World) :
  same_sources script_file w (after script_file w0 w name).
Proof.
  destruct (after_cases w0 name) as [H|[H|[H|[img H]]]]; rewrite H.
  - apply same_sources_refl.
  - apply same_sources_stdout.
  - apply same_sources_blocked.
  - apply same_sources_converted.
Qed.

(** Whatever a call does, it leaves the sources as they were. *)
Lemma convert_icon_keeps_sources (name : string) (w : World) :
  same_sources script_file w (convert_icon script_file name w).2.
Proof. rewrite convert_icon_spec. apply after_same_state. Qed.

Lemma missing_same_sources (name : string) (w0 w : World) :
  same_sources script_file w0 w ->
  missing script_file name w0 -> missing script_file name w.
Proof.
  unfold missing. intros Hsame Hmiss. destruct (Hsame name) as (_ & Hex & _).
  by rewrite Hex.
Qed.

Lemma valid_same_sources (name : string) (w0 w : World) :
  same_sources script_file w0 w ->
  valid_source script_file name w0 -> valid_source script_file name w.
Proof.
  intros Hsame (data & img & Hfile & Hdec). exists data, img.
  by rewrite (proj1 (Hsame name)).
Qed.

Lemma outcome_of_same_sources (w0 w0' : World) (name : string) :
  same_sources script_file w0 w0' ->
  outcome_of script_file w0' name = outcome_of script_file w0 name.
Proof.
  intros Hsame. unfold outcome_of. destruct (Hsame name) as (-> & -> & ->). done.
Qed.

Lemma after_same_sources (w0 w0' w : World) (name : string) :
  same_sources script_file w0 w0' ->
  after script_file w0' w name = after script_file w0 w name.
Proof.
  intros Hsame. unfold after. destruct (Hsame name) as (-> & -> & ->). done.
Qed.

(** One call, seen from the state [w0] whose sources it reads. *)
Lemma convert_icon_after (name : string) (w0 w : World) :
  same_sources script_file w0 w ->
  convert_icon script_file name w
  = (outcome_of script_file w0 name, after script_file w0 w name).
Proof.
  intros Hsame.
  by rewrite convert_icon_spec, (outcome_of_same_sources w0 w name Hsame),
    (after_same_sources w0 w w name Hsame).
Qed.

Lemma after_keeps_sources (name : string) (w0 w : World) :
  same_sources script_file w0 w ->
  same_sources script_file w0 (after script_file w0 w name).
Proof.
  intros Hsame. apply same_sources_trans with w; [done|].
  apply after_same_state.
Qed.



(** ** The loop *)

Lemma for_each_loop (names : list string) (w0 : World) :
  ∀ success w,
    same_sources script_file w0 w ->
    for_each script_file names success w = loop script_file w0 names success w.
Proof.
  induction names as [|name rest IH]; intros success w Hsame; [done|].
  cbn [for_each loop]. unfold bind.
  rewrite (convert_icon_after name w0 w Hsame).
  destruct (outcome_of script_file w0 name) as [ok|e]; [|done].
  by apply IH, after_keeps_sources.
Qed.

Lemma loop_same_sources (w0 w0' : World) (names : list string) :
  same_sources script_file w0 w0' ->
  ∀ success w,
    loop script_file w0' names success w = loop script_file w0 names success w.
Proof.
  intros Hsame. induction names as [|name rest IH]; intros success w; [done|].
  cbn [loop].
  rewrite (outcome_of_same_sources w0 w0' name Hsame),
    (after_same_sources w0 w0' w name Hsame).
  destruct (outcome_of script_file w0 name); [apply IH|done].
Qed.





(** The loop, when every source that exists can be converted: it comes
    back with the count of the sources present, having printed one
    status line per name, in order. *)
Lemma loop_run (names : list string) (w0 : World) :
  (∀ name, name ∈ names ->
           missing script_file name w0 ∨ convertible script_file name w0) ->
  ∀ success w,
    ∃ w',
      loop script_file w0 names success w
      = (Ret (success
              + length (filter (fun name => path_exists (src_path script_file name) w0 = true)
                               names))%nat, w')
      ∧ stdout w' = stdout w ++ map (report script_file w0) names.
Proof.
  induction names as [|name rest IH]; intros Hok success w.
  - exists w. cbn. by rewrite Nat.add_0_r, app_nil_r.
  - assert (outcome_of script_file w0 name
            = Ret (path_exists (src_path script_file name) w0)
            ∧ stdout (after script_file w0 w name)
              = stdout w ++ [report script_file w0 name]) as [Hres Hout].
    { unfold outcome_of, after, report.
      destruct (Hok name) as [Hmiss|[Hvalid Hdst]]; [by left|..].
      - unfold missing in Hmiss. by rewrite Hmiss.
      - rewrite (valid_source_exists _ _ _ Hvalid).
        destruct Hvalid as (data & img & -> & Hdec).
        rewrite (Image.decode_identified _ _ Hdec), Hdec.
        by rewrite bool_decide_eq_false_2. }
    cbn [loop map]. rewrite Hres.
    destruct (IH (fun other Hin => Hok other (list_elem_of_further _ _ _ Hin))
                (if path_exists (src_path script_file name) w0
                 then S success else success)
                (after script_file w0 w name)) as (w' & Hrun & Hout').
    exists w'. rewrite Hrun, Hout', Hout, <- app_assoc. split; [|done].
    rewrite filter_cons.
    destruct (path_exists (src_path script_file name) w0) eqn:Hex.
    + rewrite decide_True by done. cbn [length]. do 2 f_equal. lia.
    + rewrite decide_False by done. done.
Qed.

(** ** [main] *)

Lemma main_unfold (w : World) :
  main script_file w
  = match for_each script_file ICONS 0%nat
            (set_stdout (stdout w ++ header script_file) w) with
    | (Ret success, w1) =>
        (Ret tt, set_stdout (stdout w1 ++ [""; summary success]) w1)
    | (Raise e, w1) => (Raise e, w1)
    end.
Proof.
  unfold main, bind, print, header, set_stdout. cbn [files dirs stdout].
  rewrite <- !app_assoc. cbn [app].
  destruct (for_each script_file ICONS 0%nat _) as [[success|e] w1]; [|done].
  cbn [files dirs stdout]. by rewrite <- app_assoc.
Qed.

Lemma main_batch (w0 w : World) :
  same_sources script_file w0 w ->
  main script_file w = batch_from script_file w0 w.
Proof.
  intros Hsame. rewrite main_unfold. unfold batch_from.
  rewrite (for_each_loop ICONS w0); [done|].
  by apply same_sources_trans with w, same_sources_stdout.
Qed.





(** The result of a call and the bytes it writes are decided by the
    source entry of its own name and by whether its own destination is
    a directory. *)
Lemma same_source_same_result (name : string) (w1 w2 : World) :
  files w1 !! src_path script_file name = files w2 !! src_path script_file name ->
  path_exists (src_path script_file name) w1 = path_exists (src_path script_file name) w2 ->
  bool_decide (dst_path script_file name ∈ dirs w1)
  = bool_decide (dst_path script_file name ∈ dirs w2) ->
  (convert_icon script_file name w1).1 = (convert_icon script_file name w2).1
  ∧ written script_file name w1 = written script_file name w2.
Proof.
  intros Hfile Hex Hdst. unfold written. rewrite !convert_icon_spec.
  unfold outcome_of, after. rewrite Hfile, Hex, Hdst.
  destruct (path_exists _ w2); [|done].
  destruct (files w2 !! _) as [data|]; [|done].
  destruct (Image.identify data); [|done].
  destruct (Image.decode data) as [img|]; [|done].
  destruct (bool_decide (_ ∈ dirs w2)); [done|].
  unfold converted. cbn [fst files]. by rewrite !lookup_insert_eq.
Qed.

(** ** The batch driver *)

(** C6, as amended: provided every source that exists decodes and has
    no directory at its destination, [main] walks the seven configured
    names once, in their order, calls [convert_icon] for each, counts
    the calls that returned true and prints "Converted <success>/7
    icons" as its last line; with exactly three sources present the
    line is "Converted 3/7 icons". *)
Theorem main_summary (w : World) :
  (∀ name, name ∈ ICONS ->
           missing script_file name w ∨ convertible script_file name w) ->
  ICONS = ["new_vm"; "edit"; "delete"; "start"; "stop"; "reboot"; "shutdown"]%string
  ∧ (∀ name, name ∈ ICONS ->
             (convert_icon script_file name w).1
             = Ret (path_exists (src_path script_file name) w))
  ∧ ∃ w',
      main script_file w = (Ret tt, w')
      ∧ stdout w'
        = stdout w ++ header script_file ++ map (report script_file w) ICONS
          ++ [""; "Converted " +:+ pretty (present script_file w) +:+ "/7 icons"]%string
      ∧ last (stdout w')
        = Some ("Converted " +:+ pretty (present script_file w) +:+ "/7 icons")%string
      ∧ (present script_file w = 3%nat ->
         last (stdout w') = Some "Converted 3/7 icons"%string).
Proof.
  intros Hok. split; [reflexivity|]. split.
  { intros name Hin.
    rewrite (convert_icon_after name w w (same_sources_refl w)). cbn [fst].
    unfold outcome_of. destruct (Hok name Hin) as [Hmiss|[Hvalid Hdst]].
    - unfold missing in Hmiss. by rewrite Hmiss.
    - rewrite (valid_source_exists _ _ _ Hvalid).
      destruct Hvalid as (data & img & -> & Hdec).
      rewrite (Image.decode_identified _ _ Hdec), Hdec.
      by rewrite bool_decide_eq_false_2. }
  rewrite (main_batch w w (same_sources_refl w)). unfold batch_from.
  destruct (loop_run ICONS w Hok 0%nat (set_stdout (stdout w ++ header script_file) w))
    as (w1 & -> & Hout1).
  eexists. split; [reflexivity|]. cbn [stdout set_stdout] in *.
  change (0 + length (filter _ ICONS))%nat with (present script_file w).
  assert (stdout w1 ++ [""%string; summary (present script_file w)]
          = stdout w ++ header script_file ++ map (report script_file w) ICONS
            ++ [""; "Converted " +:+ pretty (present script_file w) +:+ "/7 icons"]%string)
    as Hout.
  { rewrite Hout1. by rewrite <- !app_assoc. }
  split; [exact Hout|].
  assert (last (stdout w1 ++ [""%string; summary (present script_file w)])
          = Some ("Converted " +:+ pretty (present script_file w) +:+ "/7 icons")%string)
    as Hlast.
  { rewrite (cons_middle ""%string), app_assoc. apply last_snoc. }
  split; [exact Hlast|].
  intros Hthree. by rewrite Hlast, Hthree.
Qed.


(** ** Independence of the icons *)

(** C8, as amended: what a call returns and the bytes it writes depend
    on nothing but the source entry of its own name and on whether its
    own destination is a directory; a call for any name, whether it
    returned false or true or raised, leaves the result and the
    written bytes of every call unchanged; a call that returned false
    has changed no file and no directory; and a call changes no file
    other than its own destination. *)
Theorem icons_independent (name : string) (w1 w2 : World) :
  (files w1 !! src_path script_file name = files w2 !! src_path script_file name ->
   path_exists (src_path script_file name) w1
   = path_exists (src_path script_file name) w2 ->
   (dst_path script_file name ∈ dirs w1 ↔ dst_path script_file name ∈ dirs w2) ->
   (convert_icon script_file name w1).1 = (convert_icon script_file name w2).1
   ∧ written script_file name w1 = written script_file name w2)
  ∧ (∀ other,
       (convert_icon script_file name (convert_icon script_file other w1).2).1
       = (convert_icon script_file name w1).1
       ∧ written script_file name (convert_icon script_file other w1).2
         = written script_file name w1)
  ∧ (∀ other,
       (convert_icon script_file other w1).1 = Ret false ->
       files (convert_icon script_file other w1).2 = files w1
       ∧ dirs (convert_icon script_file other w1).2 = dirs w1)
  ∧ (∀ p, p ≠ dst_path script_file name ->
          files (convert_icon script_file name w1).2 !! p = files w1 !! p).
Proof.
  split; [|split; [|split]].
  - intros Hfile Hex Hdst. apply same_source_same_result; [done..|].
    by apply bool_decide_ext.
  - intros other.
    destruct (convert_icon_keeps_sources other w1 name) as (Hfile & Hex & Hdst).
    by apply same_source_same_result.
  - intros other. rewrite convert_icon_spec. unfold outcome_of, after.
    destruct (path_exists _ w1); [|done].
    destruct (files w1 !! _) as [data|]; [|done].
    destruct (Image.identify data); [|done].
    destruct (Image.decode data); [|done].
    by destruct (bool_decide _).
  - intros p Hp. rewrite convert_icon_spec. cbn [snd].
    destruct (after_cases w1 name) as [H|[H|[H|[img H]]]]; rewrite H; [done..|].
    unfold converted. cbn [files]. by rewrite lookup_insert_ne.
Qed.

End Batch.

(** * Further properties of the script *)

Section Further.

Context `{lib : Imaging}.
Variable script_file : Path.

(** ** Paths *)

Lemma string_length_app (s t : string) :
  String.length (s +:+ t) = (String.length s + String.length t)%nat.
Proof. induction s as [|c s IH]; simpl; [done|by f_equal]. Qed.

Lemma string_app_inv_tail (t s1 s2 : string) : s1 +:+ t = s2 +:+ t -> s1 = s2.
Proof.
  revert s2. induction s1 as [|c1 s1 IH]; intros [|c2 s2] Heq.
  - done.
  - apply (f_equal String.length) in Heq.
    change (String.length t = S (String.length (s2 +:+ t))) in Heq.
    rewrite string_length_app in Heq. lia.
  - apply (f_equal String.length) in Heq.
    change (S (String.length (s1 +:+ t)) = String.length t) in Heq.
    rewrite string_length_app in Heq. lia.
  - injection Heq as -> Heq. by rewrite (IH s2 Heq).
Qed.

Lemma dst_path_inj (name other : string) :
  dst_path script_file name = dst_path script_file other -> name = other.
Proof.
  unfold dst_path, joinpath. intros Heq.
  apply app_inj_tail in Heq as [_ Heq]. by apply string_app_inv_tail in Heq.
Qed.

Lemma src_path_inj (name other : string) :
  src_path script_file name = src_path script_file other -> name = other.
Proof.
  unfold src_path, joinpath. intros Heq.
  apply app_inj_tail in Heq as [_ Heq]. by apply string_app_inv_tail in Heq.
Qed.

Lemma ICONS_plain : Forall (fun name => plain name = true) ICONS.
Proof. unfold ICONS. repeat constructor. Qed.

(** X4: two different names of one path component each (no separator
    in them, as for every configured name) never share a source file
    or a destination file, no destination is the source of any name,
    and the destination directory is the directory above the source
    directory. *)
Theorem paths_separate (name other : string) :
  plain name = true -> plain other = true ->
  name ≠ other ->
  dst_path script_file name ≠ dst_path script_file other
  ∧ src_path script_file name ≠ src_path script_file other
  ∧ dst_path script_file name ≠ src_path script_file other
  ∧ dst_path script_file name ≠ src_path script_file name
  ∧ parent (dst_path script_file name) = DST_DIR script_file
  ∧ parent (parent (src_path script_file name)) = DST_DIR script_file.
Proof.
  intros _ _ Hne. split; [by intros Heq%dst_path_inj|].
  split; [by intros Heq%src_path_inj|].
  split; [apply src_not_dst|]. split; [apply src_not_dst|].
  rewrite parent_dst_path, parent_src_path. split; [done|].
  unfold SRC_DIR. by apply parent_joinpath.
Qed.

(** ** One call *)




(** ** The transparency key *)

(** X3: the key colour stands for transparency and for nothing else.
    When [convert_icon] has returned true for a source whose bytes
    decode to [img], a pixel of the saved picture is magenta
    (255, 0, 255) exactly when the alpha of that pixel of [img],
    converted to RGBA and resized to 48 x 48, is 128 or less, because
    recolouring lifts the green of every opaque pixel to 50 or more. *)
Theorem magenta_iff_transparent (name : string) (w w' : World)
    (data : list byte) (img : Image.t) :
  files w !! src_path script_file name = Some data ->
  Image.decode data = Some img ->
  convert_icon script_file name w = (Ret true, w') ->
  ∃ out,
    files w' !! dst_path script_file name = Some (Image.encode "BMP" out)
    ∧ ∀ x y, (x < 48)%nat -> (y < 48)%nat ->
        ∃ r g b a,
          Image.getpixel
            (Image.resize (ICON_SIZE, ICON_SIZE) Image.LANCZOS (Image.convert RGBA img))
            (x, y) = Some [r; g; b; a]
          ∧ (Image.getpixel out (x, y) = Some (map clip8 [255; 0; 255])
             ↔ to_Z a <= 128).
Proof.
  intros Hfile Hdec Hrun.
  destruct (convert_icon_true_inv _ _ _ _ Hrun)
    as (data' & img' & Hfile' & Hdec' & _ & ->).
  assert (img' = img) as -> by congruence.
  exists (rendered img). split; [apply lookup_insert_eq|].
  intros x y Hx Hy. fold (icon img).
  pose (K c := Image.LANCZOS (Image.convert RGBA img) (ICON_SIZE, ICON_SIZE) c (x, y)).
  exists (K 0%nat), (K 1%nat), (K 2%nat), (K 3%nat).
  split; [by apply icon_pixel|].
  rewrite rendered_pixel by done. fold (K 0%nat) (K 1%nat) (K 2%nat) (K 3%nat).
  cbn zeta. rewrite threshold_byte.
  destruct (Z.ltb_spec 128 (to_Z (K 3%nat))) as [Hop|Htr].
  - rewrite !blend8_opaque. split; [|lia].
    intros Heq. injection Heq as _ Hgreen _.
    pose proof (darken_byte_bright (K 1%nat)) as Hbright.
    unfold DARK_GRAY in Hgreen. cbn [fst snd] in Hgreen.
    rewrite Hgreen in Hbright. vm_compute in Hbright. by destruct Hbright.
  - rewrite !blend8_transparent. done.
Qed.

(** ** Two calls *)






(** ** The whole batch *)

Lemma outcome_of_ok (w0 : World) (name : string) :
  missing script_file name w0 ∨ convertible script_file name w0 ->
  outcome_of script_file w0 name = Ret (path_exists (src_path script_file name) w0).
Proof.
  unfold outcome_of. intros [Hmiss|[Hvalid Hdst]].
  - unfold missing in Hmiss. by rewrite Hmiss.
  - rewrite (valid_source_exists _ _ _ Hvalid).
    destruct Hvalid as (data & img & -> & Hdec).
    rewrite (Image.decode_identified _ _ Hdec), Hdec.
    by rewrite bool_decide_eq_false_2.
Qed.

Lemma outcome_of_ret (w0 : World) (name : string) (ok : bool) :
  outcome_of script_file w0 name = Ret ok ->
  missing script_file name w0 ∨ convertible script_file name w0.
Proof.
  unfold outcome_of, missing, convertible, valid_source.
  destruct (path_exists _ w0); [|by left].
  destruct (files w0 !! _) as [data|]; [|discriminate].
  destruct (Image.identify data); [|discriminate].
  destruct (Image.decode data) as [img|] eqn:Hdec; [|discriminate].
  destruct (bool_decide_reflect (dst_path script_file name ∈ dirs w0));
    [discriminate|].
  right. split; [by exists data, img|done].
Qed.

Lemma outcome_of_bad (w0 w : World) (name : string) :
  path_exists (src_path script_file name) w0 = true ->
  ¬ convertible script_file name w0 ->
  ∃ e, outcome_of script_file w0 name = Raise e
       ∧ files (after script_file w0 w name) = files w
       ∧ stdout (after script_file w0 w name) = stdout w.
Proof.
  unfold outcome_of, after, convertible, valid_source. intros -> Hbad.
  destruct (files w0 !! _) as [data|]; [|by eexists].
  destruct (Image.identify data); [|by eexists].
  destruct (Image.decode data) as [img|] eqn:Hdec; [|by eexists].
  destruct (bool_decide_reflect (dst_path script_file name ∈ dirs w0));
    [by eexists|].
  destruct Hbad. split; [by exists data, img|done].
Qed.

Lemma loop_app (w0 : World) (names rest : list string) :
  ∀ success w,
    loop script_file w0 (names ++ rest) success w
    = match loop script_file w0 names success w with
      | (Ret count, w1) => loop script_file w0 rest count w1
      | (Raise e, w1) => (Raise e, w1)
      end.
Proof.
  induction names as [|name names IH]; intros success w; [done|].
  cbn [app loop]. destruct (outcome_of script_file w0 name); [apply IH|done].
Qed.

Lemma loop_ret_inv (names : list string) (w0 : World) :
  ∀ success w count w',
    loop script_file w0 names success w = (Ret count, w') ->
    ∀ name, name ∈ names ->
            missing script_file name w0 ∨ convertible script_file name w0.
Proof.
  induction names as [|name rest IH]; intros success w count w' Hrun other Hin.
  - by apply elem_of_nil in Hin.
  - cbn [loop] in Hrun.
    destruct (outcome_of script_file w0 name) as [ok|e] eqn:Hres; [|discriminate].
    apply elem_of_cons in Hin as [->|Hin]; [by eapply outcome_of_ret|].
    by eapply IH.
Qed.

Lemma after_files_frame (w0 w : World) (name : string) (p : Path) :
  p ≠ dst_path script_file name ->
  files (after script_file w0 w name) !! p = files w !! p.
Proof.
  intros Hp.
  destruct (after_cases script_file w0 name) as [H|[H|[H|[img H]]]];
    rewrite H; [done..|].
  unfold converted. cbn [files]. by rewrite lookup_insert_ne.
Qed.

Lemma loop_files_frame (names : list string) (w0 : World) (p : Path) :
  (∀ name, name ∈ names -> p ≠ dst_path script_file name) ->
  ∀ success w, files (loop script_file w0 names success w).2 !! p = files w !! p.
Proof.
  induction names as [|name rest IH]; intros Hp success w; [done|].
  cbn [loop].
  assert (files (after script_file w0 w name) !! p = files w !! p) as Hstep
    by (apply after_files_frame, Hp; left).
  destruct (outcome_of script_file w0 name); [|done].
  rewrite IH; [done|]. intros other Hin. apply Hp. by right.
Qed.

Lemma after_files_missing (w0 w : World) (name other : string) :
  missing script_file other w0 ->
  files (after script_file w0 w name) !! dst_path script_file other
  = files w !! dst_path script_file other.
Proof.
  intros Hmiss. destruct (decide (name = other)) as [->|Hne].
  - unfold after. unfold missing in Hmiss. by rewrite Hmiss.
  - apply after_files_frame. by intros Heq%dst_path_inj.
Qed.

Lemma loop_files_missing (names : list string) (w0 : World) (other : string) :
  missing script_file other w0 ->
  ∀ success w,
    files (loop script_file w0 names success w).2 !! dst_path script_file other
    = files w !! dst_path script_file other.
Proof.
  intros Hmiss. induction names as [|name rest IH]; intros success w; [done|].
  cbn [loop]. pose proof (after_files_missing w0 w name other Hmiss) as Hstep.
  destruct (outcome_of script_file w0 name); [|done]. by rewrite IH.
Qed.

Lemma loop_files_valid (names : list string) (w0 : World)
    (other : string) (data : list byte) (img : Image.t) :
  (∀ name, name ∈ names ->
           missing script_file name w0 ∨ convertible script_file name w0) ->
  files w0 !! src_path script_file other = Some data ->
  Image.decode data = Some img ->
  dst_path script_file other ∉ dirs w0 ->
  other ∈ names ->
  ∀ success w,
    files (loop script_file w0 names success w).2 !! dst_path script_file other
    = Some (Image.encode "BMP" (rendered img)).
Proof.
  intros Hok Hfile Hdec Hdst.
  induction names as [|name rest IH]; intros Hin success w.
  - by apply elem_of_nil in Hin.
  - cbn [loop]. rewrite (outcome_of_ok w0 name) by (apply Hok; left).
    destruct (decide (other ∈ rest)) as [Hrest|Hrest].
    + apply IH; [|done]. intros; apply Hok. by right.
    + apply elem_of_cons in Hin as [->|Hin]; [|done].
      rewrite loop_files_frame.
      * assert (path_exists (src_path script_file name) w0 = true) as Hex
          by (unfold path_exists; by rewrite Hfile).
        unfold after.
        rewrite Hex, Hfile, (Image.decode_identified _ _ Hdec), Hdec.
        rewrite bool_decide_eq_false_2 by done.
        unfold converted. cbn [files]. apply lookup_insert_eq.
      * intros later Hlater Heq%dst_path_inj. by subst.
Qed.

Lemma after_dirs_bounds (w0 w : World) (name : string) :
  dirs w ⊆ dirs (after script_file w0 w name)
  ∧ dirs (after script_file w0 w name)
    ⊆ dirs w ∪ list_to_set (with_parents (DST_DIR script_file)).
Proof.
  destruct (after_cases script_file w0 name) as [H|[H|[H|[img H]]]]; rewrite H.
  - split; [done|apply union_subseteq_l].
  - split; [done|apply union_subseteq_l].
  - split; [apply union_subseteq_l|done].
  - split; [apply union_subseteq_l|done].
Qed.

Lemma loop_dirs_bounds (names : list string) (w0 : World) :
  ∀ success w,
    dirs w ⊆ dirs (loop script_file w0 names success w).2
    ∧ dirs (loop script_file w0 names success w).2
      ⊆ dirs w ∪ list_to_set (with_parents (DST_DIR script_file)).
Proof.
  induction names as [|name rest IH]; intros success w;
    [split; [done|apply union_subseteq_l]|].
  cbn [loop]. pose proof (after_dirs_bounds w0 w name) as [Hlow Hhigh].
  destruct (outcome_of script_file w0 name) as [ok|e]; [|done].
  destruct (IH (if ok then S success else success) (after script_file w0 w name))
    as [Hlow' Hhigh'].
  split; [by transitivity (dirs (after script_file w0 w name))|].
  transitivity (dirs (after script_file w0 w name)
                ∪ list_to_set (with_parents (DST_DIR script_file))); [done|].
  apply union_least; [done|apply union_subseteq_r].
Qed.

Lemma main_world (w : World) :
  ∃ success,
    files (main script_file w).2
    = files (loop script_file w ICONS success
               (set_stdout (stdout w ++ header script_file) w)).2
    ∧ dirs (main script_file w).2
      = dirs (loop script_file w ICONS success
                (set_stdout (stdout w ++ header script_file) w)).2.
Proof.
  exists 0%nat. rewrite (main_batch script_file w w (same_sources_refl _ w)).
  unfold batch_from.
  by destruct (loop script_file w ICONS 0%nat _) as [[count|e] w1].
Qed.

(** X6: [main] comes back without raising exactly when every configured
    source is either missing or a file that decodes and has no
    directory at its destination. *)
Theorem main_returns_iff (w : World) :
  (main script_file w).1 = Ret tt
  ↔ ∀ name, name ∈ ICONS ->
            missing script_file name w ∨ convertible script_file name w.
Proof.
  rewrite (main_batch script_file w w (same_sources_refl _ w)). unfold batch_from.
  split.
  - intros Hrun.
    destruct (loop script_file w ICONS 0%nat _) as [[count|e] w1] eqn:Hloop;
      [|discriminate].
    by eapply loop_ret_inv.
  - intros Hok.
    destruct (loop_run script_file ICONS w Hok 0%nat
                (set_stdout (stdout w ++ header script_file) w)) as (w1 & -> & _).
    done.
Qed.

(** X7: [main] stops at the first name whose source exists and cannot
    be converted (it does not decode, or a directory sits at its
    destination): it raises there, having printed the header and one
    status line for each earlier name and nothing else, and the
    destinations of the names it did not reach are as they were. *)
Theorem main_stops_at_first_failure (w : World) (earlier later : list string)
    (bad : string) :
  ICONS = earlier ++ bad :: later ->
  (∀ name, name ∈ earlier ->
           missing script_file name w ∨ convertible script_file name w) ->
  path_exists (src_path script_file bad) w = true ->
  ¬ convertible script_file bad w ->
  ∃ e w',
    main script_file w = (Raise e, w')
    ∧ stdout w' = stdout w ++ header script_file ++ map (report script_file w) earlier
    ∧ ∀ name, name ∉ earlier ->
              files w' !! dst_path script_file name
              = files w !! dst_path script_file name.
Proof.
  intros Hsplit Hok Hex Hbad.
  rewrite (main_batch script_file w w (same_sources_refl _ w)). unfold batch_from.
  rewrite Hsplit, loop_app.
  pose proof (loop_files_frame earlier w) as Hframe.
  destruct (loop_run script_file earlier w Hok 0%nat
              (set_stdout (stdout w ++ header script_file) w)) as (w1 & Hrun & Hout).
  rewrite Hrun. cbn [loop].
  destruct (outcome_of_bad w w1 bad Hex Hbad) as (e & -> & Hfiles & Hout').
  exists e, (after script_file w w1 bad). split; [done|]. split.
  - rewrite Hout', Hout. cbn [stdout set_stdout]. by rewrite app_assoc.
  - intros name Hname. rewrite Hfiles.
    assert (∀ other, other ∈ earlier ->
                     dst_path script_file name ≠ dst_path script_file other) as Hne.
    { intros other Hin Heq%dst_path_inj. by subst. }
    pose proof (Hframe (dst_path script_file name) Hne 0%nat
                  (set_stdout (stdout w ++ header script_file) w)) as Hkept.
    by rewrite Hrun in Hkept.
Qed.

(** X8: [main] changes no file other than the destinations of the
    configured names, removes no directory, and makes no directory
    other than the destination directory and its ancestors. *)
Theorem main_frame (w : World) (p : Path) :
  (∀ name, name ∈ ICONS -> p ≠ dst_path script_file name) ->
  files (main script_file w).2 !! p = files w !! p
  ∧ dirs w ⊆ dirs (main script_file w).2
  ∧ dirs (main script_file w).2
    ⊆ dirs w ∪ list_to_set (with_parents (DST_DIR script_file)).
Proof.
  intros Hp. destruct (main_world w) as (success & -> & ->).
  split; [by rewrite loop_files_frame|].
  apply (loop_dirs_bounds ICONS w success
           (set_stdout (stdout w ++ header script_file) w)).
Qed.

(** X9: after a batch in which every source that exists decodes and has
    no directory at its destination, the destination of each valid
    name holds the encoding of that name's own picture (no later call
    has overwritten it), and the destination of each missing name is
    as it was before the batch. *)
Theorem main_writes_each_icon (w : World) (name : string) :
  (∀ other, other ∈ ICONS ->
            missing script_file other w ∨ convertible script_file other w) ->
  name ∈ ICONS ->
  (∀ data img,
     files w !! src_path script_file name = Some data ->
     Image.decode data = Some img ->
     files (main script_file w).2 !! dst_path script_file name
     = Some (Image.encode "BMP" (rendered img)))
  ∧ (missing script_file name w ->
     files (main script_file w).2 !! dst_path script_file name
     = files w !! dst_path script_file name).
Proof.
  intros Hok Hin. destruct (main_world w) as (success & -> & _). split.
  - intros data img Hfile Hdec. apply loop_files_valid with data; [done..| |done].
    destruct (Hok name Hin) as [Hmiss|[_ Hdst]]; [|done].
    unfold missing, path_exists in Hmiss. by rewrite Hfile in Hmiss.
  - intros Hmiss. by rewrite loop_files_missing.
Qed.

End Further.

(** * The script on the demonstration instance *)

Section OnDemo.

#[local] Existing Instance Demo.lib.

Lemma edit_png_valid (name : string) (w : World) :
  files w !! src_path Demo.script name = Some Demo.edit_png ->
  valid_source Demo.script name w.
Proof. intros Hfile. by exists Demo.edit_png, Demo.edit_img. Qed.

Lemma edit_free3 : dst_path Demo.script "edit" ∉ dirs Demo.world3.
Proof. apply (proj1 (bool_decide_eq_false _)). vm_compute. reflexivity. Qed.

Lemma edit_free1 : dst_path Demo.script "edit" ∉ dirs Demo.world1.
Proof. apply not_elem_of_empty. Qed.

Lemma edit_convertible : convertible Demo.script "edit" Demo.world3.
Proof.
  split; [apply edit_png_valid; vm_compute; reflexivity|exact edit_free3].
Qed.

Lemma world3_sources (name : string) :
  name ∈ ICONS ->
  missing Demo.script name Demo.world3 ∨ convertible Demo.script name Demo.world3.
Proof.
  unfold ICONS. intros Hin.
  repeat (apply elem_of_cons in Hin as [->|Hin];
          [first [left; vm_compute; reflexivity
                 |right; split;
                  [apply edit_png_valid; vm_compute; reflexivity
                  |apply (proj1 (bool_decide_eq_false _)); vm_compute; reflexivity]]|]).
  by apply elem_of_nil in Hin.
Qed.

(** The run of the whole batch over [world3], line by line. *)
Example demo_run :
  (main Demo.script Demo.world3).1 = Ret tt
  ∧ stdout (main Demo.script Demo.world3).2
    = ["Source: /repo/src/manager/resources/material";
       "Output: /repo/src/manager/resources";
       "";
       "  [SKIP] /repo/src/manager/resources/material/new_vm.png not found";
       "  [OK] edit.bmp";
       "  [SKIP] /repo/src/manager/resources/material/delete.png not found";
       "  [OK] start.bmp";
       "  [OK] stop.bmp";
       "  [SKIP] /repo/src/manager/resources/material/reboot.png not found";
       "  [SKIP] /repo/src/manager/resources/material/shutdown.png not found";
       "";
       "Converted 3/7 icons"]%string.
Proof. split; vm_compute; reflexivity. Qed.

(** The four corners of the picture saved for [edit_png]: opaque black
    turns dark grey, alpha 128 is keyed out, of (50, 49, 128) only the
    49 is lifted, and alpha 129 keeps its white. *)
Example demo_corners :
  map (Image.getpixel (rendered Demo.edit_img)) [(0, 0); (47, 0); (0, 47); (47, 47)]%nat
  = map (fun px => Some (map clip8 px))
        [[60; 60; 60]; [255; 0; 255]; [50; 60; 128]; [255; 255; 255]].
Proof. vm_compute. reflexivity. Qed.

(** The file written for it is a bitmap of 54 + 48 * 48 * 3 bytes. *)
Example demo_file_size :
  length <$> written Demo.script "edit" Demo.world3 = Some 6966%nat.
Proof. vm_compute. reflexivity. Qed.

Lemma convert_icon_missing_source_witness :
  missing Demo.script "delete" Demo.world3
  ∧ ∃ w',
      convert_icon Demo.script "delete" Demo.world3 = (Ret false, w')
      ∧ stdout w'
        = ["  [SKIP] /repo/src/manager/resources/material/delete.png not found"]%string
      ∧ files w' = files Demo.world3.
Proof.
  assert (missing Demo.script "delete" Demo.world3) as Hmiss
    by (vm_compute; reflexivity).
  split; [exact Hmiss|].
  destruct (convert_icon_missing_source Demo.script "delete" Demo.world3 Hmiss)
    as (w' & Hrun & Hout & Hfiles & _).
  exists w'. split; [exact Hrun|]. split; [exact Hout|exact Hfiles].
Defined.

Lemma missing_source_leaves_filesystem_witness :
  (∃ w',
     convert_icon Demo.script "delete" Demo.world1 = (Ret false, w')
     ∧ files w' = files Demo.world1 ∧ dirs w' = dirs Demo.world1
     ∧ DST_DIR Demo.script ∉ dirs w')
  ∧ DST_DIR Demo.script ∈ dirs (convert_icon Demo.script "edit" Demo.world1).2
  ∧ (convert_icon Demo.script "edit" Demo.world1).1 = Ret true.
Proof.
  split.
  - destruct (proj1 (missing_source_leaves_filesystem Demo.script "delete" Demo.world1))
      as (w' & Hrun & Hfiles & Hdirs & Hdst); [vm_compute; reflexivity|].
    exists w'. repeat split; try assumption.
    apply Hdst. apply not_elem_of_empty.
  - destruct (proj2 (missing_source_leaves_filesystem Demo.script "edit" Demo.world1))
      as [Hmade Hrun]; [apply edit_png_valid; vm_compute; reflexivity|].
    split; [exact Hmade|exact (Hrun edit_free1)].
Defined.

Lemma convert_icon_output_format_witness :
  convertible Demo.script "edit" Demo.world3
  ∧ ∃ w' out,
      convert_icon Demo.script "edit" Demo.world3 = (Ret true, w')
      ∧ files w' !! dst_path Demo.script "edit" = Some (Image.encode "BMP" out)
      ∧ icon_format out.
Proof.
  split; [exact edit_convertible|].
  exact (proj1 (convert_icon_output_format Demo.script "edit" Demo.world3)
           edit_convertible).
Defined.

(** C2 as stated fails where a directory sits at the destination: the
    source [edit.png] exists and decodes, and the call raises from
    [save] instead of returning true; no file is written. *)
Lemma valid_source_blocked_destination :
  valid_source Demo.script "edit" Demo.world_blocked
  ∧ (convert_icon Demo.script "edit" Demo.world_blocked).1 = Raise IsADirectoryError
  ∧ files (convert_icon Demo.script "edit" Demo.world_blocked).2
      !! dst_path Demo.script "edit" = None.
Proof.
  split; [apply edit_png_valid; vm_compute; reflexivity|].
  split; vm_compute; reflexivity.
Qed.

Lemma convert_icon_alpha_threshold_witness :
  ∃ w' out alpha,
    convert_icon Demo.script "edit" Demo.world3 = (Ret true, w')
    ∧ files w' !! dst_path Demo.script "edit" = Some (Image.encode "BMP" out)
    ∧ Image.split (icon Demo.edit_img) !! 3%nat = Some alpha
    ∧ ∃ a m,
        Image.getpixel alpha (47, 0)%nat = Some [a]
        ∧ Image.getpixel (Image.point threshold alpha) (47, 0)%nat = Some [m]
        ∧ (to_Z a = 128 -> to_Z m = 0).
Proof.
  destruct (convert_icon_alpha_threshold Demo.script "edit" Demo.world3
              Demo.edit_png Demo.edit_img)
    as (w' & out & alpha & Hrun & Hfile & Halpha & Hpx);
    [vm_compute; reflexivity|vm_compute; reflexivity|exact edit_free3|].
  exists w', out, alpha. do 3 (split; [assumption|]).
  destruct (Hpx 47%nat 0%nat) as (r & g & b & a & m & _ & Ha & Hm & _ & _ & Hedge & _);
    [lia|lia|].
  exists a, m. split; [exact Ha|]. split; [exact Hm|exact Hedge].
Defined.

Lemma convert_icon_recolor_witness :
  ∃ w' out green0,
    convert_icon Demo.script "edit" Demo.world3 = (Ret true, w')
    ∧ files w' !! dst_path Demo.script "edit" = Some (Image.encode "BMP" out)
    ∧ Image.split (icon Demo.edit_img) !! 1%nat = Some green0
    ∧ ∃ g g',
        Image.getpixel green0 (0, 47)%nat = Some [g]
        ∧ Image.getpixel (Image.point (darken DARK_GRAY.1.2) green0) (0, 47)%nat
          = Some [g']
        ∧ (to_Z g = 49 -> to_Z g' = 60).
Proof.
  destruct (convert_icon_recolor Demo.script "edit" Demo.world3
              Demo.edit_png Demo.edit_img)
    as (w' & out & red0 & green0 & blue0 & Hrun & Hfile & _ & Hgreen & _ & Hpx);
    [vm_compute; reflexivity|vm_compute; reflexivity|exact edit_free3|].
  exists w', out, green0. do 3 (split; [assumption|]).
  destruct (Hpx 0%nat 47%nat)
    as (r & g & b & a & r' & g' & b' & _ & _ & Hg & _ & _ & Hg' & _ & Hrule & _);
    [lia|lia|].
  exists g, g'. split; [exact Hg|]. split; [exact Hg'|].
  apply (Hrule g g'). apply list_elem_of_further, list_elem_of_here.
Defined.

Lemma composite_pixels_witness :
  ∃ w' out,
    convert_icon Demo.script "edit" Demo.world3 = (Ret true, w')
    ∧ files w' !! dst_path Demo.script "edit" = Some (Image.encode "BMP" out)
    ∧ Image.size out = (48, 48)%nat.
Proof.
  destruct (composite_pixels Demo.script "edit" Demo.world3 Demo.edit_png Demo.edit_img)
    as (w' & out & Hrun & Hfile & Hsize & _);
    [vm_compute; reflexivity|vm_compute; reflexivity|exact edit_free3|].
  by exists w', out.
Defined.

Lemma output_pixels_magenta_or_bright_witness :
  ∃ out,
    files (converted Demo.script "edit" Demo.edit_img Demo.world3)
      !! dst_path Demo.script "edit" = Some (Image.encode "BMP" out)
    ∧ ∃ px,
        Image.getpixel out (0, 0)%nat = Some px
        ∧ (px = map clip8 [255; 0; 255] ∨ Forall (fun v => 50 <= to_Z v) px).
Proof.
  destruct (output_pixels_magenta_or_bright Demo.script "edit" Demo.world3
              (converted Demo.script "edit" Demo.edit_img Demo.world3))
    as (out & Hfile & Hpx).
  - apply convert_icon_present with Demo.edit_png;
      [vm_compute; reflexivity|vm_compute; reflexivity|exact edit_free3].
  - exists out. split; [exact Hfile|]. apply Hpx; lia.
Defined.

Lemma main_summary_witness :
  present Demo.script Demo.world3 = 3%nat
  ∧ ∃ w',
      main Demo.script Demo.world3 = (Ret tt, w')
      ∧ last (stdout w') = Some "Converted 3/7 icons"%string.
Proof.
  assert (present Demo.script Demo.world3 = 3%nat) as Hthree
    by (vm_compute; reflexivity).
  split; [exact Hthree|].
  destruct (main_summary Demo.script Demo.world3 world3_sources)
    as (_ & _ & w' & Hrun & _ & _ & Hlast).
  exists w'. split; [exact Hrun|exact (Hlast Hthree)].
Defined.

(** C6 as stated fails where a source exists and does not decode:
    with three of the seven sources present and [edit.png] cut short
    inside its pixel data, [main] raises inside the second call, the
    remaining names are never converted and no summary is printed. *)
Lemma main_corrupt_source_no_summary :
  present Demo.script Demo.world_corrupt = 3%nat
  ∧ (main Demo.script Demo.world_corrupt).1 = Raise OSError
  ∧ stdout (main Demo.script Demo.world_corrupt).2
    = ["Source: /repo/src/manager/resources/material";
       "Output: /repo/src/manager/resources";
       "";
       "  [SKIP] /repo/src/manager/resources/material/new_vm.png not found"]%string
  ∧ last (stdout (main Demo.script Demo.world_corrupt).2)
    ≠ Some "Converted 3/7 icons"%string.
Proof.
  repeat split; try (vm_compute; reflexivity).
  vm_compute. discriminate.
Qed.

Lemma icons_independent_witness :
  (convert_icon Demo.script "edit" Demo.world3).1
  = (convert_icon Demo.script "edit" Demo.world1).1
  ∧ written Demo.script "edit" Demo.world3 = written Demo.script "edit" Demo.world1.
Proof.
  apply (proj1 (icons_independent Demo.script "edit" Demo.world3 Demo.world1));
    [vm_compute; reflexivity|vm_compute; reflexivity|].
  split; intros Hin; [destruct (edit_free3 Hin)|destruct (edit_free1 Hin)].
Defined.

(** C8 as stated fails where a directory sits at the destination: two
    states with the same files, so the same [edit.png], in one of
    which [edit.bmp] is a directory; the call returns true and writes
    the bitmap in the first and raises, writing nothing, in the other. *)
Lemma same_source_other_result :
  files Demo.world_blocked = files Demo.world3
  ∧ path_exists (src_path Demo.script "edit") Demo.world_blocked
    = path_exists (src_path Demo.script "edit") Demo.world3
  ∧ (convert_icon Demo.script "edit" Demo.world3).1 = Ret true
  ∧ (convert_icon Demo.script "edit" Demo.world_blocked).1 = Raise IsADirectoryError
  ∧ written Demo.script "edit" Demo.world3 ≠ written Demo.script "edit" Demo.world_blocked.
Proof.
  split; [reflexivity|]. repeat split; try (vm_compute; reflexivity).
  vm_compute. discriminate.
Qed.

End OnDemo.

(** * The further properties on the demonstration instance *)

Section FurtherOnDemo.

#[local] Existing Instance Demo.lib.

Lemma edit_converted :
  convert_icon Demo.script "edit" Demo.world3
  = (Ret true, converted Demo.script "edit" Demo.edit_img Demo.world3).
Proof.
  apply convert_icon_present with Demo.edit_png;
    [vm_compute; reflexivity|vm_compute; reflexivity|exact edit_free3].
Qed.

Lemma corrupt_not_convertible : ¬ convertible Demo.script "edit" Demo.world_corrupt.
Proof.
  intros [(data & img & Hfile & Hdec) _]. vm_compute in Hfile.
  injection Hfile as <-. vm_compute in Hdec. discriminate.
Qed.

Lemma paths_separate_witness :
  dst_path Demo.script "edit" ≠ dst_path Demo.script "stop"
  ∧ src_path Demo.script "edit" ≠ src_path Demo.script "stop"
  ∧ dst_path Demo.script "edit" ≠ src_path Demo.script "stop".
Proof.
  destruct (paths_separate Demo.script "edit" "stop") as (Hdst & Hsrc & Hcross & _);
    [reflexivity|reflexivity|discriminate|].
  by repeat split.
Defined.



Lemma magenta_iff_transparent_witness :
  ∃ out,
    files (converted Demo.script "edit" Demo.edit_img Demo.world3)
      !! dst_path Demo.script "edit" = Some (Image.encode "BMP" out)
    ∧ ∃ r g b a,
        Image.getpixel
          (Image.resize (ICON_SIZE, ICON_SIZE) Image.LANCZOS
             (Image.convert RGBA Demo.edit_img))
          (47, 0)%nat = Some [r; g; b; a]
        ∧ (Image.getpixel out (47, 0)%nat = Some (map clip8 [255; 0; 255])
           ↔ to_Z a <= 128).
Proof.
  destruct (magenta_iff_transparent Demo.script "edit" Demo.world3
              (converted Demo.script "edit" Demo.edit_img Demo.world3)
              Demo.edit_png Demo.edit_img)
    as (out & Hfile & Hpx);
    [vm_compute; reflexivity|vm_compute; reflexivity|exact edit_converted|].
  exists out. split; [exact Hfile|]. apply Hpx; lia.
Defined.


Lemma main_returns_iff_witness : (main Demo.script Demo.world3).1 = Ret tt.
Proof.
  apply (main_returns_iff Demo.script Demo.world3). exact world3_sources.
Defined.

Lemma main_stops_at_first_failure_witness :
  ∃ e w',
    main Demo.script Demo.world_corrupt = (Raise e, w')
    ∧ stdout w'
      = ["Source: /repo/src/manager/resources/material";
         "Output: /repo/src/manager/resources";
         "";
         "  [SKIP] /repo/src/manager/resources/material/new_vm.png not found"]%string
    ∧ files w' !! dst_path Demo.script "start" = None.
Proof.
  destruct (main_stops_at_first_failure Demo.script Demo.world_corrupt
              ["new_vm"]%string
              ["delete"; "start"; "stop"; "reboot"; "shutdown"]%string "edit")
    as (e & w' & Hrun & Hout & Hkept).
  - reflexivity.
  - intros name Hin. apply list_elem_of_singleton in Hin as ->.
    left. vm_compute. reflexivity.
  - vm_compute. reflexivity.
  - exact corrupt_not_convertible.
  - exists e, w'. split; [exact Hrun|]. split; [exact Hout|].
    rewrite Hkept; [vm_compute; reflexivity|].
    intros Hin. apply list_elem_of_singleton in Hin. discriminate.
Defined.

Lemma main_frame_witness :
  files (main Demo.script Demo.world3).2 !! [""; "etc"; "passwd"]%string = None
  ∧ dirs Demo.world3 ⊆ dirs (main Demo.script Demo.world3).2.
Proof.
  destruct (main_frame Demo.script Demo.world3 [""; "etc"; "passwd"]%string)
    as (Hfile & Hdirs & _).
  - intros name _ Heq. apply (f_equal length) in Heq.
    vm_compute in Heq. discriminate.
  - split; [|exact Hdirs]. rewrite Hfile. vm_compute. reflexivity.
Defined.

Lemma main_writes_each_icon_witness :
  files (main Demo.script Demo.world3).2 !! dst_path Demo.script "edit"
  = Some (Image.encode "BMP" (rendered Demo.edit_img))
  ∧ files (main Demo.script Demo.world3).2 !! dst_path Demo.script "delete" = None.
Proof.
  split.
  - apply (proj1 (main_writes_each_icon Demo.script Demo.world3 "edit" world3_sources
                    ltac:(vm_compute; right; left)) Demo.edit_png Demo.edit_img);
      vm_compute; reflexivity.
  - rewrite (proj2 (main_writes_each_icon Demo.script Demo.world3 "delete" world3_sources
                      ltac:(vm_compute; do 2 right; left)));
      vm_compute; reflexivity.
Defined.

End FurtherOnDemo.
